(** * GenericFormWithSearchResults: search trigger, single-flight request
      bookkeeping, popup and collapse state (src/search.js)

    The component is event driven.  Every handler of the source runs to
    its first [await] synchronously; the rest of an [async] function runs
    as a promise reaction (a microtask) once the awaited promise settles.
    The embedding follows that shape:

    - [view] is the mutable state reached through [this];
    - [requests] is the heap of promises created by [_fetchResultsSingle],
      one cell per call, indexed by creation order;
    - each handler returns the new state together with the promise
      reactions it queued; [step] runs one event and then drains them.

    What the environment does is an [event]: the view is rendered, the
    user edits the input, the input fires [clear], [submit] or [blur],
    the transport answers a fetch, somebody resets the results
    collection.  Every event is a task of its own, and a fetch is answered
    in a later task than the one that issued it.  The call of
    [_fetchResults] is the [req_fetching] flag of the request it serves.

    The collaborators are kept as plain data: the results collection is
    the list of its rows, the form's error list is a list of entries, the
    popup is a flag, the root element is its set of classes.  Raw and
    prepared results are arrays of rows. *)

From stdpp Require Import gmap strings list.

Local Open Scope string_scope.
Local Open Scope list_scope.

(** ** Errors and promise outcomes *)

(** [class PromiseRejectedError extends CustomError {}] next to the plain
    [Error] built from a transport failure. *)
Inductive error : Type :=
  | PromiseRejectedError (message : string)
  | Error (message : string).

(** [e.message] *)
Definition message (e : error) : string :=
  match e with
  | PromiseRejectedError m => m
  | Error m => m
  end.

(** [e instanceof PromiseRejectedError] *)
Definition instanceofPromiseRejectedError (e : error) : bool :=
  match e with
  | PromiseRejectedError _ => true
  | Error _ => false
  end.

(** What an awaited promise hands to the awaiting function. *)
Inductive outcome (A : Type) : Type :=
  | Resolved (a : A)
  | Thrown (e : error).
Arguments Resolved {A} a.
Arguments Thrown {A} e.

(** ** Search criteria: a JS object used as a key-value mapping *)

Abbreviation criteria := (gmap string string).

(** [_.isEqual(a, b)] on two such mappings *)
Definition isEqual (a b : criteria) : bool := bool_decide (a = b).

(** ** Entries of the form's error list *)

Record errorModel : Type := ErrorModel {
  group : string;
  errorText : string
}.

(** [errors.removeModelsOfGroup(group)] *)
Definition removeModelsOfGroup (g : string) (errs : list errorModel)
  : list errorModel :=
  filter (fun e => group e ≠ g) errs.

(** [errors.add({group, message})] *)
Definition add (m : errorModel) (errs : list errorModel) : list errorModel :=
  errs ++ [m].

Definition fetchDataError : string :=
  "fetchResultsForCriteria::fetchDataError".

(** [static CSS] *)
Module CSS.
Definition BASE : string := "generic-form-with-search-results".
Definition HIDE_RESULTS_LIST : string :=
  "generic-form-with-search-results--results-view-hidden".
End CSS.

Section Component.

(** Rows are opaque objects for the component. *)
Context {Row : Type}.

(** [options.prepareResults]: a function, or [null]. *)
Variable prepareResults : option (list Row -> list Row).

(** ** The promise heap *)

(** State of the promise built by [new Promise((resolve, reject) => ...)]
    in [_fetchResultsSingle]. *)
Inductive promise : Type :=
  | Pending
  | Fulfilled (result : list Row)
  | Rejected (e : error).

(** One call of [_fetchResultsSingle]:
    - [req_criteria] is the [searchCriteria] captured by the flow that
      awaits the request;
    - [req_promise] is the promise handed back to that flow;
    - [req_fetching] tells whether the promise of [_fetchResults] is still
      unsettled (the transport is not aborted by a cancellation). *)
Record request : Type := Request {
  req_criteria : criteria;
  req_promise : promise;
  req_fetching : bool
}.

(** ** Component state *)

Record view : Type := View {
  isRendered : bool;
  (** [getSearchInput().getValue()] *)
  inputValue : string;
  (** [this._rejectLastSearchRequest]: the closure is determined by the
      request whose [reject] it captured. *)
  _rejectLastSearchRequest : option nat;
  _lastSearchCriteria : criteria;
  (** [this._resultsView.collection] *)
  collection : list Row;
  (** [this._formView.model.getErrors()] *)
  formErrors : list errorModel;
  (** whether [getPopup()] is shown *)
  popupShown : bool;
  (** class list of [this.$el] *)
  classes : gset string;
  requests : list request
}.

Definition set_isRendered (b : bool) (v : view) : view :=
  View b (inputValue v) (_rejectLastSearchRequest v) (_lastSearchCriteria v)
       (collection v) (formErrors v) (popupShown v) (classes v) (requests v).
Definition set_inputValue (s : string) (v : view) : view :=
  View (isRendered v) s (_rejectLastSearchRequest v) (_lastSearchCriteria v)
       (collection v) (formErrors v) (popupShown v) (classes v) (requests v).
Definition set_rejectLastSearchRequest (r : option nat) (v : view) : view :=
  View (isRendered v) (inputValue v) r (_lastSearchCriteria v)
       (collection v) (formErrors v) (popupShown v) (classes v) (requests v).
Definition set_lastSearchCriteria (c : criteria) (v : view) : view :=
  View (isRendered v) (inputValue v) (_rejectLastSearchRequest v) c
       (collection v) (formErrors v) (popupShown v) (classes v) (requests v).
Definition set_collection (rows : list Row) (v : view) : view :=
  View (isRendered v) (inputValue v) (_rejectLastSearchRequest v)
       (_lastSearchCriteria v) rows (formErrors v) (popupShown v)
       (classes v) (requests v).
Definition set_formErrors (errs : list errorModel) (v : view) : view :=
  View (isRendered v) (inputValue v) (_rejectLastSearchRequest v)
       (_lastSearchCriteria v) (collection v) errs (popupShown v)
       (classes v) (requests v).
Definition set_popupShown (b : bool) (v : view) : view :=
  View (isRendered v) (inputValue v) (_rejectLastSearchRequest v)
       (_lastSearchCriteria v) (collection v) (formErrors v) b
       (classes v) (requests v).
Definition set_classes (cs : gset string) (v : view) : view :=
  View (isRendered v) (inputValue v) (_rejectLastSearchRequest v)
       (_lastSearchCriteria v) (collection v) (formErrors v) (popupShown v)
       cs (requests v).
Definition set_requests (rs : list request) (v : view) : view :=
  View (isRendered v) (inputValue v) (_rejectLastSearchRequest v)
       (_lastSearchCriteria v) (collection v) (formErrors v) (popupShown v)
       (classes v) rs.

(** ** Collapse / expand *)

(** [this.$el.removeClass(CSS.HIDE_RESULTS_LIST)] *)
Definition _expandResultsView (v : view) : view :=
  set_classes (classes v ∖ {[CSS.HIDE_RESULTS_LIST]}) v.

(** [this.$el.addClass(CSS.HIDE_RESULTS_LIST)] *)
Definition _collapseResultsView (v : view) : view :=
  set_classes ({[CSS.HIDE_RESULTS_LIST]} ∪ classes v) v.

Definition _refreshCollapsingStatusOfTheResultsView (v : view) : view :=
  if negb (length (collection v) =? 0)%nat
  then _expandResultsView v
  else _collapseResultsView v.

(** [collection.reset(rows)]: the collection is replaced wholesale, the
    ['reset'] event fires and the listener registered in [initialize]
    runs. *)
Definition collection_reset (rows : list Row) (v : view) : view :=
  _refreshCollapsingStatusOfTheResultsView (set_collection rows v).

(** ** Fetching *)

Definition _prepareDataForResultsView (data : list Row) : list Row :=
  match prepareResults with
  | Some f => f data
  | None => data
  end.

Definition set_promise (p : promise) (r : request) : request :=
  Request (req_criteria r) p (req_fetching r).
Definition set_fetching (b : bool) (r : request) : request :=
  Request (req_criteria r) (req_promise r) b.

(** Settling the promise of request [id].  A promise settles once: on a
    promise that is no longer pending, [resolve] and [reject] do nothing.
    The second component lists the flows whose continuation got queued. *)
Definition settle (id : nat) (p : promise) (v : view) : view * list nat :=
  match requests v !! id with
  | Some r =>
      match req_promise r with
      | Pending => (set_requests (<[id := set_promise p r]> (requests v)) v, [id])
      | _ => (v, [])
      end
  | None => (v, [])
  end.

(** The closure saved in [_rejectLastSearchRequest] by request [id]:
    [reject(new PromiseRejectedError('Request is cancelled'));
     this._rejectLastSearchRequest = null;] *)
Definition rejectRequest (id : nat) (v : view) : view * list nat :=
  let '(v1, jobs) :=
    settle id (Rejected (PromiseRejectedError "Request is cancelled")) v in
  (set_rejectLastSearchRequest None v1, jobs).

(** [_fetchResultsSingle(criteria)]: the body has no [await], so it runs
    synchronously.  Returns the new request and the queued reactions. *)
Definition _fetchResultsSingle (c : criteria) (v : view)
  : view * nat * list nat :=
  let '(v1, jobs) :=
    match _rejectLastSearchRequest v with
    | Some old => rejectRequest old v
    | None => (v, [])
    end in
  let id := length (requests v1) in
  let v2 := set_rejectLastSearchRequest (Some id) v1 in
  (set_requests (requests v2 ++ [Request c Pending true]) v2, id, jobs).

(** [_loadSearchResultsIntoTable(criteria)] up to [await request].  The
    spinner of [blockTillDone] belongs to the results view and is not part
    of the state. *)
Definition _loadSearchResultsIntoTable (c : criteria) (v : view)
  : view * nat * list nat :=
  _fetchResultsSingle c v.

(** [_loadSearchResultsIntoTable] from [await request] on.  [o] is how the
    promise of the request settled; the [catch] handler installed before
    the [await] sees every rejection. *)
Definition _loadSearchResultsIntoTable_resume (o : outcome (list Row))
    (v : view) : view * outcome (list Row) :=
  let '(v1, results) :=
    match o with
    | Resolved rows => (v, rows)
    | Thrown e =>
        (set_formErrors
           (add (ErrorModel fetchDataError (message e))
                (removeModelsOfGroup fetchDataError (formErrors v))) v,
         [])
    end in
  let preparedResults := _prepareDataForResultsView results in
  (collection_reset preparedResults v1, Resolved preparedResults).

(** The criteria computed at the start of [_refreshSearchResults]. *)
Definition searchCriteria (v : view) : criteria :=
  if isRendered v then {[ "FirstName" := inputValue v ]} else ∅.

(** Where a triggered flow stands when the handler returns to the event
    loop: finished with a value, or suspended on a request. *)
Inductive flow : Type :=
  | Returned (results : option (list Row))
  | Awaiting (id : nat).

(** [_refreshSearchResults()] up to its [await]. *)
Definition _refreshSearchResults (v : view) : view * flow * list nat :=
  let c := searchCriteria v in
  if negb (isEqual c (_lastSearchCriteria v)) then
    let '(v1, id, jobs) := _loadSearchResultsIntoTable c v in
    (v1, Awaiting id, jobs)
  else (v, Returned None, []).

(** [_refreshSearchResults] after its [await]; [c] is the captured
    [searchCriteria]. *)
Definition _refreshSearchResults_resume (c : criteria)
    (o : outcome (list Row)) (v : view)
  : view * outcome (option (list Row)) :=
  match o with
  | Resolved resultsLoading =>
      (set_lastSearchCriteria c v, Resolved (Some resultsLoading))
  | Thrown e => (v, Thrown e)
  end.

(** [_togglePopupVisibility] after [await this._refreshSearchResults()].
    A rethrown error leaves the state as it is. *)
Definition _togglePopupVisibility_resume
    (o : outcome (option (list Row))) (v : view) : view :=
  match o with
  | Thrown e => if instanceofPromiseRejectedError e then v else v
  | Resolved results =>
      let v1 :=
        match results with
        | None => set_popupShown true v
        | Some rows =>
            if (length rows =? 0)%nat then set_popupShown true v
            else set_popupShown false v
        end in
      _refreshCollapsingStatusOfTheResultsView v1
  end.

(** [_togglePopupVisibility()], the handler of [clear], [submit] and
    [blur], up to the point where it returns to the event loop. *)
Definition _togglePopupVisibility (v : view) : view * list nat :=
  match _refreshSearchResults v with
  | (v1, Returned results, jobs) =>
      (_togglePopupVisibility_resume (Resolved results) v1, jobs)
  | (v1, Awaiting _, jobs) => (v1, jobs)
  end.

(** What is left of a triggered flow once the request it awaits has
    settled with [o]: the rest of [_loadSearchResultsIntoTable], then of
    [_refreshSearchResults] (which captured [c]), then of
    [_togglePopupVisibility]. *)
Definition continue_flow (c : criteria) (o : outcome (list Row)) (v : view)
  : view :=
  let '(v1, o1) := _loadSearchResultsIntoTable_resume o v in
  let '(v2, o2) := _refreshSearchResults_resume c o1 v1 in
  _togglePopupVisibility_resume o2 v2.

(** The reaction queued when the promise of request [id] settles. *)
Definition resume (id : nat) (v : view) : view :=
  match requests v !! id with
  | Some r =>
      match req_promise r with
      | Pending => v
      | Fulfilled rows => continue_flow (req_criteria r) (Resolved rows) v
      | Rejected e => continue_flow (req_criteria r) (Thrown e) v
      end
  | None => v
  end.

(** ** Events *)

Inductive event : Type :=
  | Render
  | SetValue (s : string)
  | Trigger
  | FetchFulfilled (id : nat) (result : list Row)
  | FetchRejected (id : nat) (errorThrown : string)
  | CollectionReset (rows : list Row).

(** The two callbacks passed to [this._fetchResults(...).then] by request
    [id].  They can only run while the fetch of [id] is unsettled. *)
Definition fetch_settled (id : nat) (p : promise) (v : view)
  : view * list nat :=
  match requests v !! id with
  | Some r =>
      if req_fetching r then
        let v1 :=
          set_requests (<[id := set_fetching false r]> (requests v)) v in
        settle id p (set_rejectLastSearchRequest None v1)
      else (v, [])
  | None => (v, [])
  end.

Definition handle (ev : event) (v : view) : view * list nat :=
  match ev with
  | Render => (set_isRendered true v, [])
  | SetValue s => (set_inputValue s v, [])
  | Trigger => _togglePopupVisibility v
  | FetchFulfilled id result => fetch_settled id (Fulfilled result) v
  | FetchRejected id errorThrown =>
      fetch_settled id (Rejected (Error errorThrown)) v
  | CollectionReset rows => (collection_reset rows v, [])
  end.

(** One turn of the event loop: the handler, then the queued reactions. *)
Definition step (ev : event) (v : view) : view :=
  let '(v1, jobs) := handle ev v in
  foldl (fun w id => resume id w) v1 jobs.

Definition run (evs : list event) (v : view) : view :=
  foldl (fun w ev => step ev w) v evs.

(** [initialize(options)] for a results view whose collection holds
    [rows] and a form whose error list holds [errs].  To listen to the
    search input, [initialize] asks for [getSearchInput()], the view of
    the [search] region's child: that child is created by [onRender], so
    the view is rendered by the time [initialize] returns.  The input
    is empty, the popup is not shown, no request is pending, the
    recorded criteria are [{}], and the collapse state is computed
    once. *)
Definition initialize (rows : list Row) (errs : list errorModel) : view :=
  _refreshCollapsingStatusOfTheResultsView
    (View true "" None ∅ rows errs false {[CSS.BASE]} []).

End Component.

(** ** Concrete scenarios

    Rows are numbered; the component starts with an empty results
    collection and an empty error list.  The input holds ["a"], then
    ["b"], then ["c"]. *)

Definition fresh : @view nat := initialize [] [].

(** One search for ["a"] that the server answers with one row. *)
Definition searched_a : list (@event nat) :=
  [Render; SetValue "a"; Trigger; FetchFulfilled 0 [1]].

(** ... followed by a search for ["b"] that is still in flight. *)
Definition searching_b : list (@event nat) :=
  searched_a ++ [SetValue "b"; Trigger].

(** Two searches in a row, then the answer to the first one arrives. *)
Definition stale_answer : list (@event nat) :=
  [Render; SetValue "a"; Trigger; SetValue "b"; Trigger; FetchFulfilled 0 [1]].

(** A search for ["a"] that is in flight. *)
Definition searching_a : list (@event nat) :=
  [Render; SetValue "a"; Trigger].

(** A transform that always offers one extra row. *)
Definition with_placeholder : option (list nat -> list nat) :=
  Some (fun rows => rows ++ [0]).

(** ** Vocabulary of the statements *)

(** The request is outstanding: its promise has not settled. *)
Definition outstanding {Row} (v : @view Row) (id : nat) : Prop :=
  exists r, requests v !! id = Some r /\ req_promise r = Pending.

(** The transport of the request has not answered yet. *)
Definition in_flight {Row} (v : @view Row) (id : nat) : Prop :=
  exists r, requests v !! id = Some r /\ req_fetching r = true.

(** Number of fetches issued so far: [_fetchResults] is called once per
    request. *)
Definition fetches {Row} (v : @view Row) : nat := length (requests v).

(** The event is the answer (success or failure) to the fetch of [id]. *)
Definition settles {Row} (id : nat) (ev : @event Row) : bool :=
  match ev with
  | FetchFulfilled i _ | FetchRejected i _ => bool_decide (i = id)
  | _ => false
  end.

(** The collapse class is on the root element. *)
Definition collapsed {Row} (v : @view Row) : Prop :=
  CSS.HIDE_RESULTS_LIST ∈ classes v.

(** Entries of the error list that belong to group [g]. *)
Definition modelsOfGroup (g : string) (errs : list errorModel)
  : list errorModel :=
  filter (fun e => group e = g) errs.

(** The collapse rule: the class is there exactly for an empty results
    collection. *)
Definition collapse_inv {Row} (v : @view Row) : Prop :=
  collapsed v <-> length (collection v) = 0.

(** Bookkeeping of requests leaves what the user sees alone. *)
Definition same_display {Row} (v w : @view Row) : Prop :=
  classes w = classes v /\ collection w = collection v.

(** The raw result a settled request hands on: the [catch] handler of
    [_loadSearchResultsIntoTable] turns every rejection into the empty
    array. *)
Definition raw_results {Row} (o : outcome (list Row)) : list Row :=
  match o with
  | Resolved rows => rows
  | Thrown _ => []
  end.

(** ** Layout *)

(** Heights are pixels.  [resultsViewResized] counts the calls of
    [getResultsView().resize()], [pendingResizes] the zero-delay timers
    of [_onFormFieldsCollectionChange] that have not fired yet. *)
Record layout : Type := Layout {
  maxHeight : option nat;
  formMaxHeight : option nat;
  resultsRegionHeight : option nat;
  resultsViewResized : nat;
  pendingResizes : nat
}.

(** [resize()]; [middleWrapperHeight] is what
    [this._formView.getUI('middleWrapper').height()] measures when it is
    asked. *)
Definition resize {Row} (v : @view Row) (middleWrapperHeight : nat)
    (l : layout) : layout :=
  if isRendered v then
    Layout (maxHeight l) (formMaxHeight l) (Some middleWrapperHeight)
           (S (resultsViewResized l)) (pendingResizes l)
  else l.

(** [setMaxHeight(height)] *)
Definition setMaxHeight (height : nat) (l : layout) : layout :=
  Layout (Some height) (Some height) (resultsRegionHeight l)
         (resultsViewResized l) (pendingResizes l).

(** [onAttach()] *)
Definition onAttach {Row} (v : @view Row) (middleWrapperHeight : nat)
    (l : layout) : layout :=
  resize v middleWrapperHeight l.

(** [_onFormFieldsCollectionChange()]: [setTimeout(() => this.resize(), 0)] *)
Definition _onFormFieldsCollectionChange (l : layout) : layout :=
  Layout (maxHeight l) (formMaxHeight l) (resultsRegionHeight l)
         (resultsViewResized l) (S (pendingResizes l)).

(** A timer set by [_onFormFieldsCollectionChange] fires. *)
Definition timeout {Row} (v : @view Row) (middleWrapperHeight : nat)
    (l : layout) : layout :=
  match pendingResizes l with
  | 0 => l
  | S n =>
      resize v middleWrapperHeight
        (Layout (maxHeight l) (formMaxHeight l) (resultsRegionHeight l)
                (resultsViewResized l) n)
  end.

(** Events of the layout: the view is attached, the form's fields
    collection fires [reset], [update] or [sync], a timer fires, the
    parent sets the maximum height. *)
Inductive layout_event : Type :=
  | Attach (middleWrapperHeight : nat)
  | FieldsChanged
  | Timeout (middleWrapperHeight : nat)
  | SetMaxHeight (height : nat).

Definition layout_step {Row} (v : @view Row) (ev : layout_event)
    (l : layout) : layout :=
  match ev with
  | Attach h => onAttach v h l
  | FieldsChanged => _onFormFieldsCollectionChange l
  | Timeout h => timeout v h l
  | SetMaxHeight h => setMaxHeight h l
  end.

Definition layout_run {Row} (v : @view Row) (evs : list layout_event)
    (l : layout) : layout :=
  foldl (fun m ev => layout_step v ev m) l evs.

(** The height of the last [setMaxHeight] of a run, if there is one. *)
Fixpoint lastMaxHeight (evs : list layout_event) : option nat :=
  match evs with
  | [] => None
  | SetMaxHeight h :: evs =>
      match lastMaxHeight evs with
      | Some h' => Some h'
      | None => Some h
      end
  | _ :: evs => lastMaxHeight evs
  end.

(** ** More vocabulary *)

(** Number of [clear], [submit] and [blur] events in a run. *)
Fixpoint triggers {Row} (evs : list (@event Row)) : nat :=
  match evs with
  | [] => 0
  | Trigger :: evs => S (triggers evs)
  | _ :: evs => triggers evs
  end.

(** The event is the rendering of the view. *)
Definition is_render {Row} (ev : @event Row) : bool :=
  match ev with
  | Render => true
  | _ => false
  end.

(** The promise of the request has settled. *)
Definition settled {Row} (r : @request Row) : Prop :=
  req_promise r <> Pending.

(** The stored capability, if any, belongs to the request issued last,
    which is outstanding and whose fetch is unanswered. *)
Definition capability_inv {Row} (v : @view Row) : Prop :=
  forall id, _rejectLastSearchRequest v = Some id ->
    S id = fetches v /\ outstanding v id /\ in_flight v id.

(** Requests are never dropped or renumbered, keep their criteria, and
    keep the state of their promise once it has settled. *)
Definition keeps_requests {Row} (v w : @view Row) : Prop :=
  forall id r, requests v !! id = Some r ->
    exists r', requests w !! id = Some r' /\
      req_criteria r' = req_criteria r /\
      (settled r -> req_promise r' = req_promise r).

(** The classes of the root element other than the collapse class. *)
Definition other_classes {Row} (v : @view Row) : gset string :=
  classes v ∖ {[CSS.HIDE_RESULTS_LIST]}.

(** The error list is as before, or its fetch-error group was replaced
    by one entry. *)
Definition errors_replaced (before after : list errorModel) : Prop :=
  after = before \/
  exists m, after = removeModelsOfGroup fetchDataError before
                      ++ [ErrorModel fetchDataError m].

(** Before rendering: no request, no recorded criteria. *)
Definition nothing_searched {Row} (v : @view Row) : Prop :=
  isRendered v = false /\ requests v = [] /\ _lastSearchCriteria v = ∅.

(** Nothing was searched before the view is rendered; every request asks
    for one first name. *)
Definition criteria_inv {Row} (v : @view Row) : Prop :=
  (isRendered v = false ->
   requests v = [] /\ _lastSearchCriteria v = ∅) /\
  (forall id r, requests v !! id = Some r ->
     exists s, req_criteria r = {[ "FirstName" := s ]}).

(** ** More scenarios *)

(** A layout on which nothing was set or measured yet. *)
Definition blank : layout := Layout None None None 0 0.

(** The search for ["a"] was superseded by a search for ["b"]. *)
Definition superseded_a : list (@event nat) :=
  [Render; SetValue "a"; Trigger; SetValue "b"; Trigger].

(** ** Properties *)

Section Properties.

Context {Row : Type}.
Variable prepareResults : option (list Row -> list Row).

Implicit Types (v w : @view Row) (r : @request Row) (p : @promise Row).
Implicit Types (id : nat) (c : criteria) (rows : list Row).

Local Ltac setters :=
  unfold set_isRendered, set_inputValue, set_rejectLastSearchRequest,
    set_lastSearchCriteria, set_collection, set_formErrors, set_popupShown,
    set_classes, set_requests in *; cbn [isRendered inputValue
    _rejectLastSearchRequest _lastSearchCriteria collection formErrors
    popupShown classes requests] in *.

(** *** The collapse rule *)

Lemma refresh_collapse_inv v :
  collapse_inv (_refreshCollapsingStatusOfTheResultsView v).
Proof.
  unfold collapse_inv, collapsed, _refreshCollapsingStatusOfTheResultsView,
    _expandResultsView, _collapseResultsView.
  destruct (Nat.eqb_spec (length (collection v)) 0) as [E|E];
    cbn [negb]; setters.
  - split; [done | set_solver].
  - split; [|done]. rewrite elem_of_difference, elem_of_singleton.
    by intros [_ []].
Qed.

Lemma refresh_other_fields v :
  let w := _refreshCollapsingStatusOfTheResultsView v in
  collection w = collection v /\ popupShown w = popupShown v /\
  formErrors w = formErrors v /\ requests w = requests v /\
  _lastSearchCriteria w = _lastSearchCriteria v /\
  _rejectLastSearchRequest w = _rejectLastSearchRequest v /\
  isRendered w = isRendered v /\ inputValue w = inputValue v.
Proof.
  unfold _refreshCollapsingStatusOfTheResultsView, _expandResultsView,
    _collapseResultsView.
  destruct (negb _); setters; repeat split.
Qed.

Lemma refresh_collection v :
  collection (_refreshCollapsingStatusOfTheResultsView v) = collection v.
Proof. apply refresh_other_fields. Qed.
Lemma refresh_popupShown v :
  popupShown (_refreshCollapsingStatusOfTheResultsView v) = popupShown v.
Proof. apply refresh_other_fields. Qed.
Lemma refresh_formErrors v :
  formErrors (_refreshCollapsingStatusOfTheResultsView v) = formErrors v.
Proof. apply refresh_other_fields. Qed.
Lemma refresh_requests v :
  requests (_refreshCollapsingStatusOfTheResultsView v) = requests v.
Proof. apply refresh_other_fields. Qed.
Lemma refresh_lastSearchCriteria v :
  _lastSearchCriteria (_refreshCollapsingStatusOfTheResultsView v)
  = _lastSearchCriteria v.
Proof. apply refresh_other_fields. Qed.
Lemma refresh_reject v :
  _rejectLastSearchRequest (_refreshCollapsingStatusOfTheResultsView v)
  = _rejectLastSearchRequest v.
Proof. apply refresh_other_fields. Qed.
Lemma refresh_isRendered v :
  isRendered (_refreshCollapsingStatusOfTheResultsView v) = isRendered v.
Proof. apply refresh_other_fields. Qed.
Lemma refresh_inputValue v :
  inputValue (_refreshCollapsingStatusOfTheResultsView v) = inputValue v.
Proof. apply refresh_other_fields. Qed.

Lemma same_display_inv v w : same_display v w -> collapse_inv v -> collapse_inv w.
Proof.
  unfold collapse_inv, collapsed. intros [Hc Hr]. by rewrite Hc, Hr.
Qed.

Lemma settle_display id p v : same_display v (settle id p v).1.
Proof.
  unfold settle, same_display.
  destruct (requests v !! id) as [r|]; [|done].
  destruct (req_promise r); done.
Qed.

Lemma rejectRequest_display id v : same_display v (rejectRequest id v).1.
Proof.
  unfold rejectRequest.
  pose proof (settle_display id
    (Rejected (PromiseRejectedError "Request is cancelled")) v) as H.
  destruct (settle _ _ v) as [v1 jobs]. exact H.
Qed.

Lemma fetchResultsSingle_display c v :
  same_display v (_fetchResultsSingle c v).1.1.
Proof.
  unfold _fetchResultsSingle.
  destruct (_rejectLastSearchRequest v) as [old|]; [|done].
  pose proof (rejectRequest_display old v) as H.
  destruct (rejectRequest old v) as [v1 jobs]. exact H.
Qed.

Lemma fetch_settled_display id p v : same_display v (fetch_settled id p v).1.
Proof.
  unfold fetch_settled.
  destruct (requests v !! id) as [r|]; [|done].
  destruct (req_fetching r); [|done].
  match goal with |- same_display _ (settle _ _ ?w).1 =>
    pose proof (settle_display id p w) as H end.
  exact H.
Qed.

Lemma togglePopupVisibility_resume_inv o v :
  collapse_inv v -> collapse_inv (_togglePopupVisibility_resume o v).
Proof.
  intros Hv. destruct o as [results|e]; cbn.
  - apply refresh_collapse_inv.
  - by destruct (instanceofPromiseRejectedError e).
Qed.

Lemma continue_flow_inv c o v : collapse_inv (continue_flow prepareResults c o v).
Proof.
  unfold continue_flow. destruct o; cbn; apply refresh_collapse_inv.
Qed.

Lemma resume_inv id v :
  collapse_inv v -> collapse_inv (resume prepareResults id v).
Proof.
  intros Hv. unfold resume.
  destruct (requests v !! id) as [r|]; [|done].
  destruct (req_promise r) as [|rows|e]; [done| |];
    apply continue_flow_inv.
Qed.

Lemma handle_inv ev v : collapse_inv v -> collapse_inv (handle ev v).1.
Proof.
  intros Hv. destruct ev as [|s| |id rows|id m|rows]; cbn - [fetch_settled].
  - done.
  - done.
  - unfold _togglePopupVisibility, _refreshSearchResults,
      _loadSearchResultsIntoTable.
    destruct (negb _).
    + pose proof (fetchResultsSingle_display (searchCriteria v) v) as H.
      destruct (_fetchResultsSingle _ v) as [[v1 id] jobs].
      by apply (same_display_inv v).
    + by apply togglePopupVisibility_resume_inv.
  - apply (same_display_inv v); [apply fetch_settled_display | done].
  - apply (same_display_inv v); [apply fetch_settled_display | done].
  - apply refresh_collapse_inv.
Qed.

Lemma drain_inv jobs v :
  collapse_inv v ->
  collapse_inv (foldl (fun w id => resume prepareResults id w) v jobs).
Proof.
  revert v. induction jobs as [|id jobs IH]; intros v Hv; cbn; [done|].
  by apply IH, resume_inv.
Qed.

Lemma step_inv ev v : collapse_inv v -> collapse_inv (step prepareResults ev v).
Proof.
  intros Hv. unfold step.
  pose proof (handle_inv ev v Hv) as H.
  destruct (handle ev v) as [v1 jobs]. by apply drain_inv.
Qed.

Lemma run_inv evs v : collapse_inv v -> collapse_inv (run prepareResults evs v).
Proof.
  revert v. induction evs as [|ev evs IH]; intros v Hv; cbn; [done|].
  by apply IH, step_inv.
Qed.

(** C9. After construction, and after every event handled since (resets
    and updates of the results collection, search triggers, answers to
    fetches), the collapse class is on the root element exactly when the
    results collection has length 0. *)
Theorem collapse_class_iff_empty (rows : list Row) errs (evs : list (@event Row)) :
  let v := run prepareResults evs (initialize rows errs) in
  collapsed v <-> length (collection v) = 0.
Proof.
  apply run_inv. unfold initialize. apply refresh_collapse_inv.
Qed.

(** *** What a settled flow leaves behind *)

Lemma continue_flow_unfold c o v :
  continue_flow prepareResults c o v
  = let preparedResults :=
      _prepareDataForResultsView prepareResults (raw_results o) in
    let v1 :=
      match o with
      | Resolved _ => v
      | Thrown e =>
          set_formErrors
            (removeModelsOfGroup fetchDataError (formErrors v)
               ++ [ErrorModel fetchDataError (message e)]) v
      end in
    _refreshCollapsingStatusOfTheResultsView
      (set_popupShown (length preparedResults =? 0)%nat
         (set_lastSearchCriteria c (collection_reset preparedResults v1))).
Proof.
  unfold continue_flow. destruct o as [rows|e]; cbn;
    by destruct (length _ =? 0)%nat.
Qed.

Local Ltac flow_fields :=
  rewrite continue_flow_unfold; cbv zeta; unfold collection_reset;
  repeat (progress (rewrite ?refresh_collection, ?refresh_popupShown,
                      ?refresh_formErrors, ?refresh_requests,
                      ?refresh_lastSearchCriteria, ?refresh_reject,
                      ?refresh_isRendered, ?refresh_inputValue; setters));
  try done.

Lemma continue_flow_collection c o v :
  collection (continue_flow prepareResults c o v)
  = _prepareDataForResultsView prepareResults (raw_results o).
Proof. flow_fields. Qed.

Lemma continue_flow_popup c o v :
  popupShown (continue_flow prepareResults c o v)
  = (length (_prepareDataForResultsView prepareResults (raw_results o)) =? 0)%nat.
Proof. flow_fields. Qed.

Lemma continue_flow_criteria c o v :
  _lastSearchCriteria (continue_flow prepareResults c o v) = c.
Proof. flow_fields. Qed.

Lemma continue_flow_errors c o v :
  formErrors (continue_flow prepareResults c o v)
  = match o with
    | Resolved _ => formErrors v
    | Thrown e =>
        removeModelsOfGroup fetchDataError (formErrors v)
          ++ [ErrorModel fetchDataError (message e)]
    end.
Proof. destruct o; flow_fields. Qed.

Lemma continue_flow_bookkeeping c o v :
  let w := continue_flow prepareResults c o v in
  requests w = requests v /\
  _rejectLastSearchRequest w = _rejectLastSearchRequest v /\
  isRendered w = isRendered v /\ inputValue w = inputValue v.
Proof. cbv zeta. destruct o; flow_fields. Qed.

Lemma resume_bookkeeping id v :
  let w := resume prepareResults id v in
  requests w = requests v /\
  _rejectLastSearchRequest w = _rejectLastSearchRequest v /\
  isRendered w = isRendered v /\ inputValue w = inputValue v.
Proof.
  cbn. unfold resume. destruct (requests v !! id) as [r|]; [|done].
  destruct (req_promise r); [done| |]; apply continue_flow_bookkeeping.
Qed.

Lemma drain_bookkeeping jobs v :
  let w := foldl (fun w id => resume prepareResults id w) v jobs in
  requests w = requests v /\
  _rejectLastSearchRequest w = _rejectLastSearchRequest v /\
  isRendered w = isRendered v /\ inputValue w = inputValue v.
Proof.
  cbn. revert v. induction jobs as [|id jobs IH]; intros v; cbn; [done|].
  destruct (IH (resume prepareResults id v)) as (-> & -> & -> & ->).
  apply resume_bookkeeping.
Qed.

(** *** The answer to the fetch of an outstanding request *)

Lemma fetch_settled_outstanding id p v r :
  requests v !! id = Some r -> req_fetching r = true ->
  req_promise r = Pending ->
  fetch_settled id p v
  = (set_requests (<[id := Request (req_criteria r) p false]> (requests v))
       (set_rejectLastSearchRequest None v), [id]).
Proof.
  intros Hr Hf Hp. unfold fetch_settled, settle. rewrite Hr, Hf. setters.
  rewrite list_lookup_insert_eq by (by eapply lookup_lt_Some).
  cbn. rewrite Hp, list_insert_insert_eq. done.
Qed.

Lemma step_fulfilled_outstanding id rows v r :
  requests v !! id = Some r -> req_fetching r = true ->
  req_promise r = Pending ->
  step prepareResults (FetchFulfilled id rows) v
  = continue_flow prepareResults (req_criteria r) (Resolved rows)
      (set_requests
         (<[id := Request (req_criteria r) (Fulfilled rows) false]> (requests v))
         (set_rejectLastSearchRequest None v)).
Proof.
  intros Hr Hf Hp. unfold step. cbn [handle].
  rewrite (fetch_settled_outstanding _ _ _ _ Hr Hf Hp). cbn [foldl].
  unfold resume at 1. setters.
  rewrite list_lookup_insert_eq by (by eapply lookup_lt_Some). done.
Qed.

Lemma step_rejected_outstanding id m v r :
  requests v !! id = Some r -> req_fetching r = true ->
  req_promise r = Pending ->
  step prepareResults (FetchRejected id m) v
  = continue_flow prepareResults (req_criteria r) (Thrown (Error m))
      (set_requests
         (<[id := Request (req_criteria r) (Rejected (Error m)) false]>
            (requests v))
         (set_rejectLastSearchRequest None v)).
Proof.
  intros Hr Hf Hp. unfold step. cbn [handle].
  rewrite (fetch_settled_outstanding _ _ _ _ Hr Hf Hp). cbn [foldl].
  unfold resume at 1. setters.
  rewrite list_lookup_insert_eq by (by eapply lookup_lt_Some). done.
Qed.

(** *** A trigger on unchanged criteria *)

Lemma refreshSearchResults_skip v :
  searchCriteria v = _lastSearchCriteria v ->
  _refreshSearchResults v = (v, Returned None, []).
Proof.
  intros E. unfold _refreshSearchResults, isEqual.
  by rewrite bool_decide_eq_true_2.
Qed.

Lemma step_trigger_skip v :
  searchCriteria v = _lastSearchCriteria v ->
  step prepareResults Trigger v
  = _refreshCollapsingStatusOfTheResultsView (set_popupShown true v).
Proof.
  intros E. unfold step. cbn [handle]. unfold _togglePopupVisibility.
  by rewrite (refreshSearchResults_skip v E).
Qed.

(** Removing a group and adding one entry to it leaves exactly that
    entry in the group. *)
Lemma modelsOfGroup_replaced g m errs :
  modelsOfGroup g (removeModelsOfGroup g errs ++ [ErrorModel g m])
  = [ErrorModel g m].
Proof.
  unfold modelsOfGroup, removeModelsOfGroup. rewrite filter_app.
  assert (filter (fun e => group e = g) (filter (fun e => group e ≠ g) errs)
          = []) as ->.
  { induction errs as [|e errs IH]; [done|].
    rewrite (filter_cons (fun e => group e ≠ g)).
    destruct (decide (group e ≠ g)) as [Hne|Heq]; [|exact IH].
    rewrite filter_cons. destruct (decide (group e = g)); [done|exact IH]. }
  rewrite filter_cons. cbn. by destruct (decide (g = g)).
Qed.

(** *** Issuing a request *)

Lemma settle_bookkeeping id p v :
  let w := (settle id p v).1 in
  length (requests w) = length (requests v) /\
  _rejectLastSearchRequest w = _rejectLastSearchRequest v.
Proof.
  cbn. unfold settle. destruct (requests v !! id) as [r|]; [|done].
  destruct (req_promise r); cbn; setters; by rewrite ?length_insert.
Qed.

Lemma fetchResultsSingle_fetches c v :
  fetches (_fetchResultsSingle c v).1.1 = S (fetches v).
Proof.
  unfold fetches, _fetchResultsSingle, rejectRequest.
  destruct (_rejectLastSearchRequest v) as [old|].
  - pose proof (settle_bookkeeping old
      (Rejected (PromiseRejectedError "Request is cancelled")) v) as [Hl _].
    destruct (settle _ _ v) as [v1 jobs]. cbn in *. setters.
    rewrite length_app, Hl. cbn. lia.
  - cbn. setters. rewrite length_app. cbn. lia.
Qed.

(** With no capability stored, the cancellation step of
    [_fetchResultsSingle] does nothing: no promise is touched and no
    reaction is queued. *)
Lemma fetchResultsSingle_nothing_to_cancel c v :
  _rejectLastSearchRequest v = None ->
  _fetchResultsSingle c v
  = (set_requests (requests v ++ [Request c Pending true])
       (set_rejectLastSearchRequest (Some (length (requests v))) v),
     length (requests v), []).
Proof. intros E. unfold _fetchResultsSingle. by rewrite E. Qed.

Lemma step_trigger_fetches v :
  searchCriteria v ≠ _lastSearchCriteria v ->
  fetches (step prepareResults Trigger v) = S (fetches v).
Proof.
  intros E. unfold step. cbn [handle].
  unfold _togglePopupVisibility, _refreshSearchResults,
    _loadSearchResultsIntoTable, isEqual.
  rewrite bool_decide_eq_false_2 by done. cbn [negb].
  pose proof (fetchResultsSingle_fetches (searchCriteria v) v) as H.
  destruct (_fetchResultsSingle _ v) as [[v1 id] jobs]. cbn in H.
  unfold fetches in *.
  by destruct (drain_bookkeeping jobs v1) as (-> & _).
Qed.

Lemma step_trigger_at_most_one v :
  fetches (step prepareResults Trigger v) - fetches v <= 1.
Proof.
  destruct (decide (searchCriteria v = _lastSearchCriteria v)) as [E|E].
  - rewrite (step_trigger_skip v E). unfold fetches.
    destruct (refresh_other_fields (set_popupShown true v))
      as (_ & _ & _ & -> & _). setters. lia.
  - rewrite (step_trigger_fetches v E). lia.
Qed.

(** With a capability stored for an outstanding request, that request is
    rejected with the cancellation error and its flow is queued; the new
    request is created after that. *)
Lemma fetchResultsSingle_supersedes c old r v :
  _rejectLastSearchRequest v = Some old ->
  requests v !! old = Some r -> req_promise r = Pending ->
  _fetchResultsSingle c v
  = (let cancelled :=
       set_promise (Rejected (PromiseRejectedError "Request is cancelled")) r in
     let rs := <[old := cancelled]> (requests v) in
     set_requests (rs ++ [Request c Pending true])
       (set_rejectLastSearchRequest (Some (length rs))
          (set_rejectLastSearchRequest None (set_requests rs v))),
     length (requests v), [old]).
Proof.
  intros E Hr Hp. unfold _fetchResultsSingle, rejectRequest, settle.
  rewrite E, Hr, Hp. cbn. setters. by rewrite length_insert.
Qed.

(** The promise of [_loadSearchResultsIntoTable] never rejects: its
    [catch] handler has already turned every rejection of the request,
    the cancellation included, into an empty result. *)
Lemma loadSearchResultsIntoTable_never_rejects o v :
  (_loadSearchResultsIntoTable_resume prepareResults o v).2
  = Resolved (_prepareDataForResultsView prepareResults (raw_results o)).
Proof. by destruct o. Qed.

Lemma resume_rejected id v r e :
  requests v !! id = Some r -> req_promise r = Rejected e ->
  resume prepareResults id v
  = continue_flow prepareResults (req_criteria r) (Thrown e) v.
Proof. intros Hr Hp. unfold resume. by rewrite Hr, Hp. Qed.

(** A trigger that supersedes an outstanding request runs the flow of that
    request to its end, as for a failed fetch: the cancellation message
    lands in the error list, the results collection is reset to the
    transform of the empty result and the superseded criteria are
    recorded. *)
Lemma superseding_trigger_runs_cancelled_flow v old r :
  _rejectLastSearchRequest v = Some old ->
  requests v !! old = Some r -> req_promise r = Pending ->
  searchCriteria v ≠ _lastSearchCriteria v ->
  let w := step prepareResults Trigger v in
  formErrors w
    = removeModelsOfGroup fetchDataError (formErrors v)
        ++ [ErrorModel fetchDataError "Request is cancelled"] /\
  collection w = _prepareDataForResultsView prepareResults [] /\
  _lastSearchCriteria w = req_criteria r.
Proof.
  intros E Hr Hp Hc. cbv zeta. unfold step. cbn [handle].
  unfold _togglePopupVisibility, _refreshSearchResults,
    _loadSearchResultsIntoTable, isEqual.
  rewrite bool_decide_eq_false_2 by done. cbn [negb].
  rewrite (fetchResultsSingle_supersedes _ _ _ _ E Hr Hp). cbv zeta.
  cbn [foldl].
  rewrite (resume_rejected old _
             (set_promise
                (Rejected (PromiseRejectedError "Request is cancelled")) r)
             (PromiseRejectedError "Request is cancelled")); [|  |done].
  - rewrite continue_flow_errors, continue_flow_collection,
      continue_flow_criteria.
    by setters.
  - setters.
    rewrite lookup_app_l
      by (rewrite length_insert; by eapply lookup_lt_Some).
    by rewrite list_lookup_insert_eq by (by eapply lookup_lt_Some).
Qed.

(** *** Main results *)


(** C8. When the fetch of an outstanding request succeeds with [rows],
    the results collection holds the transformed rows: what the caller's
    transform makes of [rows], or [rows] themselves if no transform was
    given.  The popup is shown exactly when there are no transformed
    rows; with one row or more it is hidden. *)
Theorem popup_shown_iff_no_rows id rows v :
  outstanding v id -> in_flight v id ->
  let w := step prepareResults (FetchFulfilled id rows) v in
  let shown :=
    match prepareResults with
    | Some transform => transform rows
    | None => rows
    end in
  collection w = shown /\
  (popupShown w = true <-> length shown = 0) /\
  (popupShown w = false <-> 0 < length shown).
Proof.
  intros (r & Hr & Hp) (r' & Hr' & Hf). simplify_eq. cbn.
  rewrite (step_fulfilled_outstanding _ _ _ _ Hr Hf Hp).
  rewrite continue_flow_collection, continue_flow_popup. cbn [raw_results].
  unfold _prepareDataForResultsView.
  destruct (Nat.eqb_spec
    (length match prepareResults with
            | Some f => f rows
            | None => rows
            end) 0) as [E|E];
    repeat split; intros; try done; lia.
Qed.

(** C4, as the code has it.  When the fetch of an outstanding request
    fails, the results collection is reset to the transform of the empty
    result, the fetch-error group is cleared and receives exactly one
    entry, carrying the failure's message, and the popup is shown exactly
    when the transform of the empty result has no rows.  Without a
    transform, or with one that maps the empty result to no rows, the
    collection is empty and the popup is shown. *)
Theorem failed_fetch_degrades_to_empty_result id m v :
  outstanding v id -> in_flight v id ->
  let w := step prepareResults (FetchRejected id m) v in
  let shown := _prepareDataForResultsView prepareResults [] in
  collection w = shown /\
  formErrors w
    = removeModelsOfGroup fetchDataError (formErrors v)
        ++ [ErrorModel fetchDataError m] /\
  modelsOfGroup fetchDataError (formErrors w) = [ErrorModel fetchDataError m] /\
  (popupShown w = true <-> length shown = 0) /\
  (prepareResults = None \/ shown = [] ->
   collection w = [] /\ popupShown w = true).
Proof.
  intros (r & Hr & Hp) (r' & Hr' & Hf). simplify_eq. cbn.
  rewrite (step_rejected_outstanding _ _ _ _ Hr Hf Hp).
  rewrite continue_flow_collection, continue_flow_popup,
    continue_flow_errors.
  cbn [raw_results message]. setters.
  rewrite modelsOfGroup_replaced.
  split; [done|]. split; [done|]. split; [done|]. split.
  - apply Nat.eqb_eq.
  - unfold _prepareDataForResultsView. by intros [->| ->].
Qed.


(** C10. Once the fetch of a request is answered, with a success or with
    a failure, [_rejectLastSearchRequest] is [null]; the cancellation step
    of a following [_fetchResultsSingle] then touches no promise and
    queues no reaction: it only appends the new request. *)
Theorem answered_fetch_clears_capability id ev v :
  in_flight v id -> settles id ev = true ->
  let w := step prepareResults ev v in
  _rejectLastSearchRequest w = None /\
  forall c,
    _fetchResultsSingle c w
    = (set_requests (requests w ++ [Request c Pending true])
         (set_rejectLastSearchRequest (Some (length (requests w))) w),
       length (requests w), []).
Proof.
  intros (r & Hr & Hf) Hev. cbn.
  assert (_rejectLastSearchRequest (step prepareResults ev v) = None) as E.
  { assert (forall p, _rejectLastSearchRequest (fetch_settled id p v).1 = None)
      as Hclear.
    { intros p. unfold fetch_settled. rewrite Hr, Hf.
      match goal with |- _rejectLastSearchRequest (settle _ _ ?w).1 = _ =>
        by destruct (settle_bookkeeping id p w) as [_ ->] end. }
    unfold step.
    destruct ev as [|s| |i rows|i m|rows]; try done;
      cbn in Hev; apply bool_decide_eq_true in Hev as ->; cbn [handle].
    - specialize (Hclear (Fulfilled rows)).
      destruct (fetch_settled id _ v) as [v1 jobs].
      by destruct (drain_bookkeeping jobs v1) as (_ & -> & _).
    - specialize (Hclear (Rejected (Error m))).
      destruct (fetch_settled id _ v) as [v1 jobs].
      by destruct (drain_bookkeeping jobs v1) as (_ & -> & _). }
  split; [done|]. intros c. by apply fetchResultsSingle_nothing_to_cancel.
Qed.

End Properties.

(** ** Concrete runs *)

Local Ltac evaluate := cbv zeta; vm_compute; reflexivity.
Local Ltac decide_it :=
  cbv zeta; unfold collapsed;
  lazymatch goal with |- ?P => apply (bool_decide_unpack P) end;
  vm_compute; exact I.
Local Ltac find_request := cbv zeta; eexists; split; vm_compute; reflexivity.

(** C1. A search for ["b"] is in flight over the one row found for
    ["a"]; the popup is hidden and the results are expanded.  A trigger
    for ["c"] cancels the request, and the cancelled flow runs on: it
    empties the results collection, shows the popup, collapses the
    results and adds an entry with the cancellation message to the error
    list. *)
Theorem cancelled_flow_is_not_silent :
  let v := run None searching_b fresh in
  let w := run None [SetValue "c"; Trigger] v in
  req_promise <$> requests v !! 1 = Some Pending /\
  req_promise <$> requests w !! 1
    = Some (Rejected (PromiseRejectedError "Request is cancelled")) /\
  (collection v = [1] /\ collection w = []) /\
  (popupShown v = false /\ popupShown w = true) /\
  (~ collapsed v /\ collapsed w) /\
  (formErrors v = [] /\
   formErrors w = [ErrorModel fetchDataError "Request is cancelled"]).
Proof.
  cbv zeta. split; [evaluate|]. split; [evaluate|].
  split; [split; evaluate|]. split; [split; evaluate|].
  split; [split; decide_it|]. split; evaluate.
Qed.

(** C2. Searches for ["a"] and ["b"] are triggered, the answer to the
    superseded ["a"] arrives, then ["c"] is triggered and answered with
    row 3.  The request for ["b"] was never cancelled: when its answer
    arrives last, row 2 replaces row 3 although ["c"] is the last
    triggered criteria. *)
Theorem older_answer_overwrites_newer_results :
  let v := run None (stale_answer ++ [SetValue "c"; Trigger;
                                      FetchFulfilled 2 [3]]) fresh in
  let w := step None (FetchFulfilled 1 [2]) v in
  searchCriteria w = {[ "FirstName" := "c" ]} /\
  req_criteria <$> requests w !! 2 = Some {[ "FirstName" := "c" ]} /\
  req_criteria <$> requests w !! 1 = Some {[ "FirstName" := "b" ]} /\
  collection v = [3] /\
  collection w = [2] /\
  _lastSearchCriteria w = {[ "FirstName" := "b" ]}.
Proof.
  cbv zeta. split; [evaluate|]. split; [evaluate|]. split; [evaluate|].
  split; [evaluate|]. split; evaluate.
Qed.

(** C3. Searches for ["a"] and ["b"] are triggered and the answer to the
    superseded ["a"] arrives: the stored capability is [null] although
    the request for ["b"] is outstanding.  A trigger for ["c"] then
    starts a third request without cancelling the second: two requests
    are outstanding. *)
Theorem stale_answer_leaves_two_outstanding :
  let v := run None stale_answer fresh in
  let w := run None [SetValue "c"; Trigger] v in
  (outstanding v 1 /\ _rejectLastSearchRequest v = None) /\
  (outstanding w 1 /\ outstanding w 2) /\
  fetches w = 3.
Proof.
  cbv zeta. split; [split; [find_request|evaluate]|].
  split; [split; find_request|]. evaluate.
Qed.

(** C4 fails as stated: with a transform that offers a placeholder row,
    a failed fetch leaves one row in the results collection and the popup
    hidden. *)
Lemma failed_fetch_with_placeholder_row :
  let v := run with_placeholder searching_a fresh in
  let w := step with_placeholder (FetchRejected 0 "boom") v in
  (outstanding v 0 /\ in_flight v 0) /\
  collection w = [0] /\ popupShown w = false /\
  ~ (collection w = [] /\ popupShown w = true).
Proof.
  cbv zeta. split; [split; find_request|].
  split; [evaluate|]. split; [evaluate|].
  intros [H _]. revert H. vm_compute. discriminate.
Qed.

(** The failure case of C4 on a search for ["a"] without transform. *)
Lemma failed_fetch_witness :
  (outstanding (run None searching_a fresh) 0 /\
   in_flight (run None searching_a fresh) 0) /\
  collection (step None (FetchRejected 0 "boom") (run None searching_a fresh))
  = @_prepareDataForResultsView nat None [].
Proof.
  assert (outstanding (run None searching_a fresh) 0) as Ho by find_request.
  assert (in_flight (run None searching_a fresh) 0) as Hi by find_request.
  split; [exact (conj Ho Hi)|].
  exact (proj1 (failed_fetch_degrades_to_empty_result None 0 "boom"
                  (run None searching_a fresh) Ho Hi)).
Defined.





(** C8 with the placeholder transform, on a search for ["a"] that the
    server answers with no row: the collection holds the placeholder row
    and the popup is hidden. *)
Lemma popup_shown_witness :
  (outstanding (run with_placeholder searching_a fresh) 0 /\
   in_flight (run with_placeholder searching_a fresh) 0) /\
  collection
    (step with_placeholder (FetchFulfilled 0 [])
       (run with_placeholder searching_a fresh)) = [0] /\
  popupShown
    (step with_placeholder (FetchFulfilled 0 [])
       (run with_placeholder searching_a fresh)) = false.
Proof.
  assert (outstanding (run with_placeholder searching_a fresh) 0)
    as Ho by find_request.
  assert (in_flight (run with_placeholder searching_a fresh) 0)
    as Hi by find_request.
  split; [exact (conj Ho Hi)|].
  pose proof (popup_shown_iff_no_rows with_placeholder 0 []
                (run with_placeholder searching_a fresh) Ho Hi)
    as (Hc & _ & Hhidden).
  split; [exact Hc|]. apply Hhidden. cbn. lia.
Defined.

(** C10 on the failure of the search for ["b"]. *)
Lemma answered_fetch_witness :
  in_flight (run None searching_b fresh) 1 /\
  _rejectLastSearchRequest
    (step None (FetchRejected 1 "boom") (run None searching_b fresh)) = None.
Proof.
  assert (in_flight (run None searching_b fresh) 1) as Hi by find_request.
  split; [exact Hi|].
  exact (proj1 (answered_fetch_clears_capability None 1
                  (FetchRejected 1 "boom") (run None searching_b fresh)
                  Hi eq_refl)).
Defined.

(** ** Further properties of the component *)

Section Further.

Context {Row : Type}.
Variable prepareResults : option (list Row -> list Row).

Implicit Types (v w : @view Row) (r : @request Row) (p : @promise Row).
Implicit Types (id : nat) (c : criteria) (rows : list Row).
Implicit Types (ev : @event Row) (evs : list (@event Row)).

Local Ltac class_cases :=
  repeat match goal with
  | |- @eq (gset string) _ _ => apply set_eq; intros ?
  | H : @eq (gset string) _ _ |- _ => rewrite set_eq in H
  end;
  repeat match goal with
  | H : forall x : string, _ |- context [?y ∈ _] => specialize (H y)
  end;
  repeat first [ rewrite elem_of_union in * | rewrite elem_of_difference in *
               | rewrite elem_of_singleton in * ];
  match goal with
  | |- context [?x = CSS.HIDE_RESULTS_LIST] =>
      destruct (decide (x = CSS.HIDE_RESULTS_LIST)); tauto
  | _ => tauto
  end.

Local Ltac setters :=
  unfold set_isRendered, set_inputValue, set_rejectLastSearchRequest,
    set_lastSearchCriteria, set_collection, set_formErrors, set_popupShown,
    set_classes, set_requests in *; cbn [isRendered inputValue
    _rejectLastSearchRequest _lastSearchCriteria collection formErrors
    popupShown classes requests] in *.

(** *** Collapse and expand *)

Lemma view_eq v w :
  isRendered v = isRendered w -> inputValue v = inputValue w ->
  _rejectLastSearchRequest v = _rejectLastSearchRequest w ->
  _lastSearchCriteria v = _lastSearchCriteria w ->
  collection v = collection w -> formErrors v = formErrors w ->
  popupShown v = popupShown w -> classes v = classes w ->
  requests v = requests w -> v = w.
Proof. destruct v, w; cbn; intros; by subst. Qed.

Lemma refresh_classes v :
  classes (_refreshCollapsingStatusOfTheResultsView v)
  = if (length (collection v) =? 0)%nat
    then {[CSS.HIDE_RESULTS_LIST]} ∪ classes v
    else classes v ∖ {[CSS.HIDE_RESULTS_LIST]}.
Proof.
  unfold _refreshCollapsingStatusOfTheResultsView, _expandResultsView,
    _collapseResultsView.
  by destruct (length (collection v) =? 0)%nat.
Qed.

(** X1. Recomputing the collapse state twice is the same as once;
    expanding after collapsing is expanding, collapsing after expanding
    is collapsing. *)
Theorem collapse_state_recomputed_once v :
  _refreshCollapsingStatusOfTheResultsView
    (_refreshCollapsingStatusOfTheResultsView v)
  = _refreshCollapsingStatusOfTheResultsView v /\
  _expandResultsView (_collapseResultsView v) = _expandResultsView v /\
  _collapseResultsView (_expandResultsView v) = _collapseResultsView v.
Proof.
  split; [|split].
  - apply view_eq;
      rewrite ?refresh_isRendered, ?refresh_inputValue, ?refresh_reject,
        ?refresh_lastSearchCriteria, ?refresh_collection,
        ?refresh_formErrors, ?refresh_popupShown, ?refresh_requests;
      try done.
    rewrite !refresh_classes, refresh_collection.
    destruct (length (collection v) =? 0)%nat; class_cases.
  - unfold _expandResultsView, _collapseResultsView. setters.
    f_equal. class_cases.
  - unfold _expandResultsView, _collapseResultsView. setters.
    f_equal. class_cases.
Qed.

Lemma refresh_other_classes v :
  other_classes (_refreshCollapsingStatusOfTheResultsView v)
  = other_classes v.
Proof.
  unfold other_classes. rewrite refresh_classes.
  destruct (length (collection v) =? 0)%nat; class_cases.
Qed.

Lemma continue_flow_other_classes c o v :
  other_classes (continue_flow prepareResults c o v) = other_classes v.
Proof.
  unfold other_classes. rewrite continue_flow_unfold. cbv zeta.
  unfold collection_reset. rewrite refresh_classes. setters.
  rewrite refresh_classes, refresh_collection. setters.
  destruct o; setters;
    destruct (length (_prepareDataForResultsView _ _) =? 0)%nat;
    class_cases.
Qed.

Lemma resume_other_classes id v :
  other_classes (resume prepareResults id v) = other_classes v.
Proof.
  unfold resume. destruct (requests v !! id) as [r|]; [|done].
  destruct (req_promise r); [done| |]; apply continue_flow_other_classes.
Qed.

Lemma same_display_other_classes v w :
  same_display v w -> other_classes w = other_classes v.
Proof. unfold other_classes. by intros [-> _]. Qed.

Lemma handle_other_classes ev v :
  other_classes (handle ev v).1 = other_classes v.
Proof.
  destruct ev as [|s| |id rows|id m|rows]; cbn - [fetch_settled].
  - done.
  - done.
  - unfold _togglePopupVisibility, _refreshSearchResults,
      _loadSearchResultsIntoTable.
    destruct (negb _).
    + pose proof (fetchResultsSingle_display (searchCriteria v) v) as H.
      destruct (_fetchResultsSingle _ v) as [[v1 id] jobs].
      by apply same_display_other_classes.
    + cbn. by rewrite refresh_other_classes.
  - apply same_display_other_classes, fetch_settled_display.
  - apply same_display_other_classes, fetch_settled_display.
  - unfold collection_reset. by rewrite refresh_other_classes.
Qed.

Lemma step_other_classes ev v :
  other_classes (step prepareResults ev v) = other_classes v.
Proof.
  unfold step. rewrite <- (handle_other_classes ev v).
  destruct (handle ev v) as [v1 jobs]. cbn [fst]. revert v1.
  induction jobs as [|id jobs IH]; intros v1; cbn; [done|].
  by rewrite IH, resume_other_classes.
Qed.

(** X2. Whatever happens, the component adds and removes no class of
    the root element other than the collapse class. *)
Theorem only_collapse_class_changes evs v (cls : string) :
  cls <> CSS.HIDE_RESULTS_LIST ->
  cls ∈ classes (run prepareResults evs v) <-> cls ∈ classes v.
Proof.
  intros Hc.
  assert (other_classes (run prepareResults evs v) = other_classes v) as E.
  { revert v. induction evs as [|ev evs IH]; intros v; cbn; [done|].
    unfold run in IH. by rewrite IH, step_other_classes. }
  unfold other_classes in E. class_cases.
Qed.

(** *** The requests *)

Lemma keeps_requests_refl v : keeps_requests v v.
Proof. intros id r Hr. by exists r. Qed.

Lemma keeps_requests_trans u v w :
  keeps_requests u v -> keeps_requests v w -> keeps_requests u w.
Proof.
  intros Huv Hvw id r Hr.
  destruct (Huv id r Hr) as (r1 & Hr1 & Hc1 & Hp1).
  destruct (Hvw id r1 Hr1) as (r2 & Hr2 & Hc2 & Hp2).
  exists r2. split; [done|]. split; [congruence|].
  intros Hs. rewrite Hp2; [by apply Hp1|].
  unfold settled in *. by rewrite Hp1.
Qed.

Lemma keeps_requests_same v w : requests w = requests v -> keeps_requests v w.
Proof. intros E id r Hr. exists r. by rewrite E. Qed.

Lemma settle_keeps id p v : keeps_requests v (settle id p v).1.
Proof.
  unfold settle. destruct (requests v !! id) as [r|] eqn:Hr;
    [|apply keeps_requests_refl].
  destruct (req_promise r) eqn:Hp; try apply keeps_requests_refl.
  cbn. intros j r' Hj. setters.
  destruct (decide (j = id)) as [->|Hne].
  - rewrite list_lookup_insert_eq by (by eapply lookup_lt_Some).
    exists (set_promise p r). simplify_eq. split; [done|]. split; [done|].
    unfold settled. by rewrite Hp.
  - rewrite list_lookup_insert_ne by done. by exists r'.
Qed.

Lemma rejectRequest_keeps id v : keeps_requests v (rejectRequest id v).1.
Proof.
  unfold rejectRequest.
  pose proof (settle_keeps id
    (Rejected (PromiseRejectedError "Request is cancelled")) v) as H.
  destruct (settle _ _ v) as [v1 jobs]. exact H.
Qed.

(** The shape of what [_fetchResultsSingle] returns: the requests there
    were, then the new one, whose capability is stored. *)
Lemma fetchResultsSingle_shape c v :
  exists v1,
    keeps_requests v v1 /\ length (requests v1) = length (requests v) /\
    (_fetchResultsSingle c v).1.1
    = set_requests (requests v1 ++ [Request c Pending true])
        (set_rejectLastSearchRequest (Some (length (requests v1))) v1) /\
    (_fetchResultsSingle c v).1.2 = length (requests v1).
Proof.
  unfold _fetchResultsSingle.
  destruct (_rejectLastSearchRequest v) as [old|].
  - pose proof (rejectRequest_keeps old v) as Hk.
    assert (length (requests (rejectRequest old v).1) = length (requests v))
      as Hl.
    { unfold rejectRequest.
      pose proof (settle_bookkeeping old
        (Rejected (PromiseRejectedError "Request is cancelled")) v) as [H _].
      by destruct (settle _ _ v). }
    destruct (rejectRequest old v) as [v1 jobs]. by exists v1.
  - exists v. split; [apply keeps_requests_refl|done].
Qed.

Lemma fetchResultsSingle_keeps c v :
  keeps_requests v (_fetchResultsSingle c v).1.1.
Proof.
  destruct (fetchResultsSingle_shape c v) as (v1 & Hk & _ & -> & _).
  eapply keeps_requests_trans; [exact Hk|].
  intros id r Hr. exists r. setters.
  by rewrite lookup_app_l by (by eapply lookup_lt_Some).
Qed.

Lemma fetch_settled_keeps id p v : keeps_requests v (fetch_settled id p v).1.
Proof.
  unfold fetch_settled.
  destruct (requests v !! id) as [r|] eqn:Hr; [|apply keeps_requests_refl].
  destruct (req_fetching r); [|apply keeps_requests_refl].
  eapply keeps_requests_trans; [|apply settle_keeps].
  intros j r' Hj. setters.
  destruct (decide (j = id)) as [->|Hne].
  - rewrite list_lookup_insert_eq by (by eapply lookup_lt_Some).
    exists (set_fetching false r). by simplify_eq.
  - rewrite list_lookup_insert_ne by done. by exists r'.
Qed.

Lemma handle_keeps ev v : keeps_requests v (handle ev v).1.
Proof.
  destruct ev as [|s| |id rows|id m|rows]; cbn - [fetch_settled].
  - by apply keeps_requests_same.
  - by apply keeps_requests_same.
  - unfold _togglePopupVisibility, _refreshSearchResults,
      _loadSearchResultsIntoTable.
    destruct (negb _).
    + pose proof (fetchResultsSingle_keeps (searchCriteria v) v) as H.
      by destruct (_fetchResultsSingle _ v) as [[v1 id] jobs].
    + cbn. apply keeps_requests_same. by rewrite refresh_requests.
  - apply fetch_settled_keeps.
  - apply fetch_settled_keeps.
  - apply keeps_requests_same. unfold collection_reset.
    by rewrite refresh_requests.
Qed.

Lemma step_keeps ev v : keeps_requests v (step prepareResults ev v).
Proof.
  unfold step. pose proof (handle_keeps ev v) as H.
  destruct (handle ev v) as [v1 jobs]. cbn [fst] in H.
  eapply keeps_requests_trans; [exact H|].
  apply keeps_requests_same.
  by destruct (drain_bookkeeping prepareResults jobs v1) as (-> & _).
Qed.

Lemma run_keeps evs v : keeps_requests v (run prepareResults evs v).
Proof.
  revert v. induction evs as [|ev evs IH]; intros v; cbn;
    [apply keeps_requests_refl|].
  eapply keeps_requests_trans; [apply step_keeps|apply IH].
Qed.

(** X3. A promise settles once: whatever happens after the promise of a
    request has been fulfilled or rejected, the request is still there
    under the same number, with the same criteria and the same outcome. *)
Theorem promise_settles_once evs v id r :
  requests v !! id = Some r -> settled r ->
  exists r', requests (run prepareResults evs v) !! id = Some r' /\
    req_promise r' = req_promise r /\ req_criteria r' = req_criteria r.
Proof.
  intros Hr Hs. destruct (run_keeps evs v id r Hr) as (r' & Hr' & Hc & Hp).
  exists r'. split; [done|]. split; [by apply Hp|done].
Qed.

(** X4. The answer to the fetch of a request whose promise has settled
    already (a superseded request) changes nothing the user sees: the
    results collection, the error list, the popup, the classes and the
    recorded criteria stay as they are.  It marks the fetch as answered
    and sets [_rejectLastSearchRequest] to [null]. *)
Theorem late_answer_changes_nothing_visible ev v id r :
  requests v !! id = Some r -> settled r -> req_fetching r = true ->
  settles id ev = true ->
  let w := step prepareResults ev v in
  collection w = collection v /\ formErrors w = formErrors v /\
  popupShown w = popupShown v /\ classes w = classes v /\
  _lastSearchCriteria w = _lastSearchCriteria v /\
  _rejectLastSearchRequest w = None /\
  requests w = <[id := set_fetching false r]> (requests v).
Proof.
  intros Hr Hs Hf Hev. cbv zeta.
  assert (forall p, fetch_settled id p v
            = (set_rejectLastSearchRequest None
                 (set_requests (<[id := set_fetching false r]> (requests v)) v),
               [])) as E.
  { intros p. unfold fetch_settled, settle. rewrite Hr, Hf. setters.
    rewrite list_lookup_insert_eq by (by eapply lookup_lt_Some).
    unfold settled in Hs. cbn. by destruct (req_promise r). }
  unfold step.
  destruct ev as [|s| |i rows|i m|rows]; try done;
    cbn in Hev; apply bool_decide_eq_true in Hev as ->; cbn [handle];
    rewrite E; cbn; by setters.
Qed.

Lemma fetch_settled_fetches id p v :
  length (requests (fetch_settled id p v).1) = length (requests v).
Proof.
  unfold fetch_settled.
  destruct (requests v !! id) as [r|]; [|done].
  destruct (req_fetching r); [|done].
  match goal with |- context [settle id ?p ?w] =>
    destruct (settle_bookkeeping id p w) as [-> _] end.
  setters. by rewrite length_insert.
Qed.

Lemma step_fetches ev v :
  fetches v <= fetches (step prepareResults ev v) /\
  fetches (step prepareResults ev v)
  <= fetches v + triggers [ev].
Proof.
  assert (length (requests (handle ev v).1) = length (requests v) ->
          fetches (step prepareResults ev v) = fetches v) as Hsame.
  { intros H. unfold step, fetches.
    destruct (handle ev v) as [v1 jobs]. cbn [fst] in H.
    by destruct (drain_bookkeeping prepareResults jobs v1) as (-> & _). }
  destruct ev as [|s| |id rows|id m|rows].
  - rewrite Hsame by done. lia.
  - rewrite Hsame by done. lia.
  - pose proof (step_trigger_at_most_one prepareResults v) as H1.
    cbn [triggers]. split; [|lia].
    destruct (decide (searchCriteria v = _lastSearchCriteria v)) as [E|E].
    + rewrite (step_trigger_skip prepareResults v E). unfold fetches.
      rewrite refresh_requests. by setters.
    + rewrite (step_trigger_fetches prepareResults v E). lia.
  - rewrite Hsame by apply fetch_settled_fetches. lia.
  - rewrite Hsame by apply fetch_settled_fetches. lia.
  - rewrite Hsame; [lia|]. cbn [handle fst]. unfold collection_reset.
    by rewrite refresh_requests.
Qed.

Lemma triggers_cons ev evs : triggers (ev :: evs) = triggers [ev] + triggers evs.
Proof. by destruct ev. Qed.

(** X5. Fetches are issued by triggers only, at most one per trigger:
    over any run the number of fetches never decreases and grows by at
    most the number of [clear], [submit] and [blur] events. *)
Theorem at_most_one_fetch_per_trigger evs v :
  fetches v <= fetches (run prepareResults evs v) /\
  fetches (run prepareResults evs v) <= fetches v + triggers evs.
Proof.
  revert v. induction evs as [|ev evs IH]; intros v.
  - cbn. lia.
  - rewrite triggers_cons. cbn [run foldl].
    destruct (step_fetches ev v) as [H1 H2].
    destruct (IH (step prepareResults ev v)) as [H3 H4].
    unfold run in *. lia.
Qed.

(** *** The stored capability *)

Lemma capability_inv_same v w :
  requests w = requests v ->
  _rejectLastSearchRequest w = _rejectLastSearchRequest v ->
  capability_inv v -> capability_inv w.
Proof.
  unfold capability_inv, fetches, outstanding, in_flight.
  intros -> ->. done.
Qed.

Lemma capability_inv_none v :
  _rejectLastSearchRequest v = None -> capability_inv v.
Proof. intros E id. by rewrite E. Qed.

Lemma fetch_settled_clears id p v r :
  requests v !! id = Some r -> req_fetching r = true ->
  _rejectLastSearchRequest (fetch_settled id p v).1 = None.
Proof.
  intros Hr Hf. unfold fetch_settled. rewrite Hr, Hf.
  match goal with |- _rejectLastSearchRequest (settle _ _ ?w).1 = _ =>
    by destruct (settle_bookkeeping id p w) as [_ ->] end.
Qed.

Lemma fetch_settled_capability id p v :
  capability_inv v -> capability_inv (fetch_settled id p v).1.
Proof.
  intros Hv.
  destruct (requests v !! id) as [r|] eqn:Hr.
  - destruct (req_fetching r) eqn:Hf.
    + apply capability_inv_none. by eapply fetch_settled_clears.
    + unfold fetch_settled. by rewrite Hr, Hf.
  - unfold fetch_settled. by rewrite Hr.
Qed.

Lemma fetchResultsSingle_capability c v :
  capability_inv (_fetchResultsSingle c v).1.1.
Proof.
  destruct (fetchResultsSingle_shape c v) as (v1 & _ & _ & -> & _).
  intros id. setters. intros [= <-].
  assert ((requests v1 ++ [Request c Pending true]) !! length (requests v1)
          = Some (Request c Pending true)) as Hnew
    by (by apply list_lookup_middle).
  unfold fetches, outstanding, in_flight. setters.
  split; [rewrite length_app; cbn; lia|].
  split; by eexists.
Qed.

Lemma handle_capability ev v :
  capability_inv v -> capability_inv (handle ev v).1.
Proof.
  intros Hv. destruct ev as [|s| |id rows|id m|rows]; cbn - [fetch_settled].
  - by apply (capability_inv_same v).
  - by apply (capability_inv_same v).
  - unfold _togglePopupVisibility, _refreshSearchResults,
      _loadSearchResultsIntoTable.
    destruct (negb _).
    + pose proof (fetchResultsSingle_capability (searchCriteria v) v) as H.
      by destruct (_fetchResultsSingle _ v) as [[v1 id] jobs].
    + cbn. apply (capability_inv_same v);
        by rewrite ?refresh_requests, ?refresh_reject.
  - by apply fetch_settled_capability.
  - by apply fetch_settled_capability.
  - unfold collection_reset. apply (capability_inv_same v);
      by rewrite ?refresh_requests, ?refresh_reject.
Qed.

Lemma step_capability ev v :
  capability_inv v -> capability_inv (step prepareResults ev v).
Proof.
  intros Hv. unfold step. pose proof (handle_capability ev v Hv) as H.
  destruct (handle ev v) as [v1 jobs]. cbn [fst] in H.
  destruct (drain_bookkeeping prepareResults jobs v1) as (E1 & E2 & _).
  by apply (capability_inv_same v1).
Qed.

(** X6. At any moment after construction, a stored cancellation
    capability belongs to the request issued last, and that request is
    outstanding with its fetch unanswered: calling the capability always
    rejects a pending promise. *)
Theorem capability_belongs_to_last_request rows errs evs id :
  let v := run prepareResults evs (initialize rows errs) in
  _rejectLastSearchRequest v = Some id ->
  S id = fetches v /\ outstanding v id /\ in_flight v id.
Proof.
  cbv zeta.
  assert (forall v, capability_inv v ->
            capability_inv (run prepareResults evs v)) as Hrun.
  { induction evs as [|ev evs IH]; intros v Hv; cbn; [done|].
    by apply IH, step_capability. }
  apply Hrun, capability_inv_none. unfold initialize.
  by rewrite refresh_reject.
Qed.

(** *** The error list *)

Lemma settle_formErrors id p v : formErrors (settle id p v).1 = formErrors v.
Proof.
  unfold settle. destruct (requests v !! id) as [r|]; [|done].
  by destruct (req_promise r).
Qed.

Lemma handle_formErrors ev v : formErrors (handle ev v).1 = formErrors v.
Proof.
  destruct ev as [|s| |id rows|id m|rows]; cbn - [fetch_settled].
  - done.
  - done.
  - unfold _togglePopupVisibility, _refreshSearchResults,
      _loadSearchResultsIntoTable, _fetchResultsSingle, rejectRequest.
    destruct (negb _); [|cbn; by rewrite refresh_formErrors].
    destruct (_rejectLastSearchRequest v) as [old|]; [|done].
    pose proof (settle_formErrors old
      (Rejected (PromiseRejectedError "Request is cancelled")) v) as H.
    by destruct (settle _ _ v).
  - unfold fetch_settled. destruct (requests v !! id) as [r|]; [|done].
    destruct (req_fetching r); [|done]. by rewrite settle_formErrors.
  - unfold fetch_settled. destruct (requests v !! id) as [r|]; [|done].
    destruct (req_fetching r); [|done]. by rewrite settle_formErrors.
  - unfold collection_reset. by rewrite refresh_formErrors.
Qed.

Lemma resume_errors_replaced id v :
  errors_replaced (formErrors v) (formErrors (resume prepareResults id v)).
Proof.
  unfold resume. destruct (requests v !! id) as [r|]; [|by left].
  destruct (req_promise r) as [|rows|e]; [by left| |];
    rewrite continue_flow_errors; [by left|right; by eexists].
Qed.

(** Whatever holds of the error list and survives a replacement of the
    fetch-error group holds after any run. *)
Lemma run_formErrors (P : list errorModel -> Prop) evs v :
  (forall a b, errors_replaced a b -> P a -> P b) ->
  P (formErrors v) -> P (formErrors (run prepareResults evs v)).
Proof.
  intros HP. revert v. induction evs as [|ev evs IH]; intros v Hv; cbn;
    [done|].
  apply IH. unfold step. rewrite <- (handle_formErrors ev v) in Hv.
  destruct (handle ev v) as [v1 jobs]. cbn [fst] in Hv. revert v1 Hv.
  induction jobs as [|id jobs IHj]; intros v1 Hv; cbn; [done|].
  apply IHj. eapply HP; [apply resume_errors_replaced|done].
Qed.

Lemma removeModelsOfGroup_replaced g m errs :
  removeModelsOfGroup g (removeModelsOfGroup g errs ++ [ErrorModel g m])
  = removeModelsOfGroup g errs.
Proof.
  unfold removeModelsOfGroup. rewrite filter_app.
  assert (filter (fun e => group e ≠ g) [ErrorModel g m] = []) as ->.
  { rewrite filter_cons. cbn. by destruct (decide (g ≠ g)). }
  rewrite app_nil_r.
  induction errs as [|e errs IH]; [done|].
  rewrite (filter_cons _ e errs).
  destruct (decide (group e ≠ g)) as [Hne|Heq]; [|exact IH].
  rewrite filter_cons. destruct (decide (group e ≠ g)); [|done].
  by rewrite IH.
Qed.

(** X7. Entries of the form's error list outside the fetch-error group
    are never removed, added or reordered by the component. *)
Theorem other_error_groups_untouched evs v :
  removeModelsOfGroup fetchDataError (formErrors (run prepareResults evs v))
  = removeModelsOfGroup fetchDataError (formErrors v).
Proof.
  apply (run_formErrors
    (fun errs => removeModelsOfGroup fetchDataError errs
                 = removeModelsOfGroup fetchDataError (formErrors v)));
    [|done].
  intros a b [->|[m ->]] Ha; [done|].
  by rewrite removeModelsOfGroup_replaced.
Qed.

(** X8. Fetch errors do not pile up: if the error list holds at most one
    entry of the fetch-error group, it holds at most one after any run,
    whatever fails or is cancelled. *)
Theorem at_most_one_fetch_error evs v :
  length (modelsOfGroup fetchDataError (formErrors v)) <= 1 ->
  length (modelsOfGroup fetchDataError
            (formErrors (run prepareResults evs v))) <= 1.
Proof.
  apply (run_formErrors
    (fun errs => length (modelsOfGroup fetchDataError errs) <= 1)).
  intros a b [->|[m ->]] Ha; [done|].
  by rewrite modelsOfGroup_replaced.
Qed.

(** X9. A successful answer to an outstanding request leaves the form's
    error list exactly as it is, so an earlier fetch-error entry stays
    on display; the criteria of the request become the recorded
    criteria. *)
Theorem success_keeps_error_list id rows v r :
  requests v !! id = Some r -> req_promise r = Pending ->
  req_fetching r = true ->
  let w := step prepareResults (FetchFulfilled id rows) v in
  formErrors w = formErrors v /\
  _lastSearchCriteria w = req_criteria r.
Proof.
  intros Hr Hp Hf. cbv zeta.
  rewrite (step_fulfilled_outstanding _ _ _ _ _ Hr Hf Hp).
  rewrite continue_flow_errors, continue_flow_criteria. by setters.
Qed.

(** *** Triggers *)

Lemma step_isRendered ev v :
  isRendered (step prepareResults ev v) = isRendered v || is_render ev.
Proof.
  unfold step.
  assert (isRendered (handle ev v).1 = isRendered v || is_render ev) as H.
  { destruct ev as [|s| |id rows|id m|rows]; cbn - [fetch_settled];
      rewrite ?orb_false_r, ?orb_true_r; try done.
    - unfold _togglePopupVisibility, _refreshSearchResults,
        _loadSearchResultsIntoTable, _fetchResultsSingle, rejectRequest,
        settle.
      destruct (negb _); [|cbn; by rewrite refresh_isRendered].
      destruct (_rejectLastSearchRequest v) as [old|]; [|done].
      destruct (requests v !! old) as [r|]; [|done].
      by destruct (req_promise r).
    - unfold fetch_settled, settle.
      destruct (requests v !! id) as [r|]; [|done].
      destruct (req_fetching r); [|done]. setters.
      destruct (_ !! id) as [r'|]; [|done]. by destruct (req_promise r').
    - unfold fetch_settled, settle.
      destruct (requests v !! id) as [r|]; [|done].
      destruct (req_fetching r); [|done]. setters.
      destruct (_ !! id) as [r'|]; [|done]. by destruct (req_promise r').
    - unfold collection_reset. by rewrite refresh_isRendered. }
  destruct (handle ev v) as [v1 jobs]. cbn [fst] in H.
  by destruct (drain_bookkeeping prepareResults jobs v1) as (_ & _ & -> & _).
Qed.

(** A trigger on changed criteria creates the request numbered by the
    fetches issued so far. *)
Lemma step_trigger_new_request v :
  searchCriteria v ≠ _lastSearchCriteria v ->
  requests (step prepareResults Trigger v) !! fetches v
  = Some (Request (searchCriteria v) Pending true).
Proof.
  intros E. unfold step. cbn [handle].
  unfold _togglePopupVisibility, _refreshSearchResults,
    _loadSearchResultsIntoTable, isEqual.
  rewrite bool_decide_eq_false_2 by done. cbn [negb].
  destruct (fetchResultsSingle_shape (searchCriteria v) v)
    as (v1 & _ & Hl & Hw & _).
  destruct (_fetchResultsSingle _ v) as [[w id] jobs]. cbn [fst] in Hw.
  destruct (drain_bookkeeping prepareResults jobs w) as (-> & _).
  subst w. setters. unfold fetches. rewrite <- Hl.
  by apply list_lookup_middle.
Qed.

Lemma step_nothing_searched ev v :
  is_render ev = false -> nothing_searched v ->
  nothing_searched (step prepareResults ev v).
Proof.
  intros Hev (Hr & Hq & Hl).
  assert (searchCriteria v = _lastSearchCriteria v) as Hskip
    by (unfold searchCriteria; by rewrite Hr, Hl).
  unfold nothing_searched.
  destruct ev as [|s| |id rows|id m|rows]; try done.
  - rewrite (step_trigger_skip prepareResults v Hskip).
    rewrite refresh_isRendered, refresh_requests,
      refresh_lastSearchCriteria. by setters.
  - unfold step. cbn [handle]. unfold fetch_settled. by rewrite Hq.
  - unfold step. cbn [handle]. unfold fetch_settled. by rewrite Hq.
  - unfold step. cbn [handle foldl]. unfold collection_reset.
    rewrite refresh_isRendered, refresh_requests,
      refresh_lastSearchCriteria. by setters.
Qed.

(** X11. The first trigger on a rendered view (recorded criteria still
    [{}]) issues a fetch whatever the input holds, the empty string
    included: [{FirstName: ''}] is not [{}]. *)
Theorem first_trigger_after_render_fetches v :
  isRendered v = true -> _lastSearchCriteria v = ∅ ->
  let w := step prepareResults Trigger v in
  fetches w = S (fetches v) /\
  requests w !! fetches v
  = Some (Request {[ "FirstName" := inputValue v ]} Pending true).
Proof.
  intros Hr Hl. cbv zeta.
  assert (searchCriteria v = {[ "FirstName" := inputValue v ]}) as Hc
    by (unfold searchCriteria; by rewrite Hr).
  assert (searchCriteria v ≠ _lastSearchCriteria v) as Hne.
  { rewrite Hc, Hl. apply map_non_empty_singleton. }
  split; [by apply step_trigger_fetches|].
  rewrite <- Hc. by apply step_trigger_new_request.
Qed.

(** Every request of the new state was there before, or was created by
    this very trigger for the criteria just computed. *)
Lemma step_requests_origin ev v id r' :
  requests (step prepareResults ev v) !! id = Some r' ->
  (exists r, requests v !! id = Some r /\ req_criteria r' = req_criteria r)
  \/ (searchCriteria v ≠ _lastSearchCriteria v /\
      req_criteria r' = searchCriteria v).
Proof.
  intros Hr'.
  destruct (decide (id < length (requests v))) as [Hlt|Hge].
  - left. apply lookup_lt_is_Some_2 in Hlt as [r Hr].
    destruct (step_keeps ev v id r Hr) as (r'' & Hr'' & Hc & _).
    exists r. split; [done|]. congruence.
  - right. pose proof (lookup_lt_Some _ _ _ Hr') as Hlt.
    destruct (step_fetches ev v) as [_ Hle]. unfold fetches in *.
    destruct ev as [|s| |i rows|i m|rows]; cbn [triggers] in Hle; try lia.
    destruct (decide (searchCriteria v = _lastSearchCriteria v)) as [E|E].
    + rewrite (step_trigger_skip prepareResults v E) in Hlt.
      rewrite refresh_requests in Hlt. setters. lia.
    + split; [done|].
      pose proof (step_trigger_new_request v E) as Hnew.
      unfold fetches in Hnew.
      assert (id = length (requests v)) as -> by lia.
      by simplify_eq.
Qed.

Lemma step_criteria_inv ev v :
  criteria_inv v -> criteria_inv (step prepareResults ev v).
Proof.
  intros [Hun Hreq]. split.
  - intros Hr. rewrite step_isRendered in Hr.
    apply orb_false_iff in Hr as [Hr Hev].
    destruct (Hun Hr) as [Hq Hl].
    by destruct (step_nothing_searched ev v Hev (conj Hr (conj Hq Hl)))
      as (_ & ? & ?).
  - intros id r' Hr'.
    destruct (step_requests_origin ev v id r' Hr')
      as [(r & Hr & ->)|[Hne ->]]; [by eapply Hreq|].
    unfold searchCriteria in *.
    destruct (isRendered v) eqn:Hren; [by eexists|].
    destruct (Hun eq_refl) as [_ Hl]. by rewrite Hl in Hne.
Qed.

(** X12. Every request the component issues after construction, over
    any run of events, was issued for criteria with exactly one key,
    [FirstName]: no request is ever issued for the criteria [{}]. *)
Theorem every_request_asks_for_a_first_name rows errs evs id r :
  requests (run prepareResults evs (initialize rows errs)) !! id = Some r ->
  exists s, req_criteria r = {[ "FirstName" := s ]}.
Proof.
  intros Hr.
  assert (criteria_inv (run prepareResults evs (initialize rows errs)))
    as [_ Hreq].
  { assert (criteria_inv (@initialize Row rows errs)) as Hinit.
    { unfold criteria_inv, initialize.
      rewrite refresh_isRendered, refresh_requests. by setters. }
    revert Hinit. generalize (@initialize Row rows errs). clear Hr.
    induction evs as [|ev evs IH]; intros v Hv; cbn; [done|].
    by apply IH, step_criteria_inv. }
  by apply (Hreq id r).
Qed.

(** X13. Supersede, then succeed.  A trigger on changed criteria cancels
    the outstanding request whose capability is stored; when the answer
    to the new request arrives, the results collection holds its
    transformed rows and its criteria are recorded, but the error list
    shows the entry "Request is cancelled" left by the superseded flow. *)
Theorem superseded_search_leaves_cancellation_error v old r rows :
  _rejectLastSearchRequest v = Some old ->
  requests v !! old = Some r -> req_promise r = Pending ->
  searchCriteria v ≠ _lastSearchCriteria v ->
  let w := run prepareResults [Trigger; FetchFulfilled (fetches v) rows] v in
  collection w = _prepareDataForResultsView prepareResults rows /\
  _lastSearchCriteria w = searchCriteria v /\
  modelsOfGroup fetchDataError (formErrors w)
  = [ErrorModel fetchDataError "Request is cancelled"].
Proof.
  intros E Hr Hp Hne. cbv zeta. cbn [run foldl].
  destruct (superseding_trigger_runs_cancelled_flow prepareResults
              v old r E Hr Hp Hne) as (Herr & _ & _).
  pose proof (step_trigger_new_request v Hne) as Hnew.
  rewrite (step_fulfilled_outstanding _ _ _ _ _ Hnew eq_refl eq_refl).
  rewrite continue_flow_collection, continue_flow_criteria,
    continue_flow_errors.
  setters. rewrite Herr. by rewrite modelsOfGroup_replaced.
Qed.


(** X15. Triggers on unchanged criteria are idempotent: a second one
    leaves the state of the first. *)
Theorem skipped_trigger_idempotent v :
  searchCriteria v = _lastSearchCriteria v ->
  step prepareResults Trigger (step prepareResults Trigger v)
  = step prepareResults Trigger v.
Proof.
  intros E. rewrite (step_trigger_skip prepareResults v E).
  rewrite step_trigger_skip.
  - apply view_eq;
      rewrite ?refresh_isRendered, ?refresh_inputValue, ?refresh_reject,
        ?refresh_lastSearchCriteria, ?refresh_collection,
        ?refresh_formErrors, ?refresh_popupShown, ?refresh_requests;
      setters;
      rewrite ?refresh_isRendered, ?refresh_inputValue, ?refresh_reject,
        ?refresh_lastSearchCriteria, ?refresh_collection,
        ?refresh_formErrors, ?refresh_popupShown, ?refresh_requests;
      try done.
    rewrite !refresh_classes; setters; rewrite ?refresh_collection;
      setters.
    destruct (length (collection v) =? 0)%nat; class_cases.
  - unfold searchCriteria.
    rewrite refresh_isRendered, refresh_inputValue,
      refresh_lastSearchCriteria. setters. exact E.
Qed.

(** *** Layout *)

Lemma layout_eq (l m : layout) :
  maxHeight l = maxHeight m -> formMaxHeight l = formMaxHeight m ->
  resultsRegionHeight l = resultsRegionHeight m ->
  resultsViewResized l = resultsViewResized m ->
  pendingResizes l = pendingResizes m -> l = m.
Proof. destruct l, m; cbn; intros; by subst. Qed.

Lemma fields_changed_run v k l :
  layout_run v (replicate k FieldsChanged) l
  = Layout (maxHeight l) (formMaxHeight l) (resultsRegionHeight l)
           (resultsViewResized l) (pendingResizes l + k).
Proof.
  revert l. induction k as [|k IH]; intros l; cbn.
  - apply layout_eq; cbn; first [done | lia].
  - unfold layout_run in IH. rewrite IH. cbn. f_equal. lia.
Qed.

Lemma timeouts_run v (hs : list nat) l :
  isRendered v = true -> length hs <= pendingResizes l ->
  layout_run v (Timeout <$> hs) l
  = Layout (maxHeight l) (formMaxHeight l)
           (match last hs with
            | Some h => Some h
            | None => resultsRegionHeight l
            end)
           (resultsViewResized l + length hs)
           (pendingResizes l - length hs).
Proof.
  intros Hr. revert l. induction hs as [|h hs IH]; intros l Hl; cbn.
  - apply layout_eq; cbn; first [done | lia].
  - cbn in Hl. unfold layout_run in IH. unfold timeout, resize.
    destruct (pendingResizes l) as [|n] eqn:Hn; [lia|]. rewrite Hr.
    rewrite IH by (cbn; lia). cbn.
    apply layout_eq; cbn; try done; try lia.
    destruct hs as [|h' hs]; [done|]. cbn.
    destruct (last (h' :: hs)) eqn:E; [done|]. by apply last_None in E.
Qed.

(** X16. Changes of the form's fields are not coalesced.  On a rendered
    view each of [n] changes only sets a timer: nothing is resized yet.
    When the timers fire, the results view is resized [n] times, once
    per change, and the results region ends with the height measured
    last. *)
Theorem field_changes_resize_once_each v (hs : list nat) l :
  isRendered v = true ->
  let changed := layout_run v (replicate (length hs) FieldsChanged) l in
  let fired := layout_run v (Timeout <$> hs) changed in
  (resultsViewResized changed = resultsViewResized l /\
   resultsRegionHeight changed = resultsRegionHeight l /\
   pendingResizes changed = pendingResizes l + length hs) /\
  (resultsViewResized fired = resultsViewResized l + length hs /\
   pendingResizes fired = pendingResizes l /\
   resultsRegionHeight fired
   = match last hs with
     | Some h => Some h
     | None => resultsRegionHeight l
     end).
Proof.
  intros Hr. cbv zeta. rewrite fields_changed_run.
  rewrite timeouts_run by first [done | cbn; lia]. cbn.
  repeat split; lia.
Qed.

(** X18. The maximum height is handed to the root element and to the
    form together, and nothing else changes it: after any run both hold
    the height of the last [setMaxHeight], or what they held before if
    there was none. *)
Theorem max_height_is_last_set v (les : list layout_event) l :
  let m := layout_run v les l in
  maxHeight m
  = match lastMaxHeight les with
    | Some h => Some h
    | None => maxHeight l
    end /\
  formMaxHeight m
  = match lastMaxHeight les with
    | Some h => Some h
    | None => formMaxHeight l
    end.
Proof.
  cbv zeta. revert l. induction les as [|ev les IH]; intros l; cbn; [done|].
  unfold layout_run in IH. destruct (IH (layout_step v ev l)) as [-> ->].
  destruct ev as [h| |h|h]; cbn; unfold onAttach, timeout, resize.
  - by destruct (lastMaxHeight les), (isRendered v).
  - by destruct (lastMaxHeight les).
  - destruct (lastMaxHeight les); [done|].
    by destruct (pendingResizes l), (isRendered v).
  - by destruct (lastMaxHeight les).
Qed.

(** *** Two triggers on the same input *)





End Further.

(** ** Further properties on concrete runs *)

(** X2 for the base class, over a search in flight. *)
Lemma only_collapse_class_witness :
  CSS.BASE <> CSS.HIDE_RESULTS_LIST /\
  (CSS.BASE ∈ classes (run None searching_b fresh)
   <-> CSS.BASE ∈ classes fresh).
Proof.
  assert (CSS.BASE <> CSS.HIDE_RESULTS_LIST) as Hne by decide_it.
  split; [exact Hne|].
  exact (only_collapse_class_changes None searching_b fresh CSS.BASE Hne).
Defined.

(** X3 for the answered search for ["a"], over a later search. *)
Lemma promise_settles_once_witness :
  requests (run None searched_a fresh) !! 0
  = Some (Request {[ "FirstName" := "a" ]} (Fulfilled [1]) false) /\
  exists r',
    requests (run None [SetValue "b"; Trigger] (run None searched_a fresh))
      !! 0 = Some r' /\
    req_promise r' = Fulfilled [1] /\
    req_criteria r' = {[ "FirstName" := "a" ]}.
Proof.
  assert (requests (run None searched_a fresh) !! 0
          = Some (Request {[ "FirstName" := "a" ]} (Fulfilled [1]) false))
    as Hr by evaluate.
  split; [exact Hr|].
  refine (promise_settles_once None [SetValue "b"; Trigger]
            (run None searched_a fresh) 0 _ Hr _).
  unfold settled. cbn. discriminate.
Defined.

(** X4 for the late answer to the superseded search for ["a"]. *)
Lemma late_answer_witness :
  requests (run None superseded_a fresh) !! 0
  = Some (Request {[ "FirstName" := "a" ]}
            (Rejected (PromiseRejectedError "Request is cancelled")) true) /\
  collection (step None (FetchFulfilled 0 [1]) (run None superseded_a fresh))
  = collection (run None superseded_a fresh).
Proof.
  assert (requests (run None superseded_a fresh) !! 0
          = Some (Request {[ "FirstName" := "a" ]}
                    (Rejected (PromiseRejectedError "Request is cancelled"))
                    true)) as Hr by evaluate.
  split; [exact Hr|].
  refine (proj1 (late_answer_changes_nothing_visible None
                   (FetchFulfilled 0 [1]) (run None superseded_a fresh) 0 _
                   Hr _ eq_refl eq_refl)).
  unfold settled. cbn. discriminate.
Defined.

(** X6 while the search for ["b"] is in flight. *)
Lemma capability_witness :
  _rejectLastSearchRequest (run None searching_b (initialize [] [])) = Some 1 /\
  S 1 = fetches (run None searching_b (@initialize nat [] [])).
Proof.
  assert (_rejectLastSearchRequest (run None searching_b (initialize [] []))
          = Some 1) as E by evaluate.
  split; [exact E|].
  exact (proj1 (capability_belongs_to_last_request None [] [] searching_b 1 E)).
Defined.

(** X8 from an empty error list, over a failed search. *)
Lemma at_most_one_fetch_error_witness :
  length (modelsOfGroup fetchDataError (formErrors fresh)) <= 1 /\
  length (modelsOfGroup fetchDataError
            (formErrors (run None (searching_a ++ [FetchRejected 0 "boom"])
                           fresh))) <= 1.
Proof.
  assert (length (modelsOfGroup fetchDataError (formErrors fresh)) <= 1)
    as H by (vm_compute; lia).
  split; [exact H|].
  exact (at_most_one_fetch_error None
           (searching_a ++ [FetchRejected 0 "boom"]) fresh H).
Defined.

(** X9 for the answer to the search for ["a"]. *)
Lemma success_keeps_error_list_witness :
  requests (run None searching_a fresh) !! 0
  = Some (Request {[ "FirstName" := "a" ]} Pending true) /\
  formErrors (step None (FetchFulfilled 0 [1]) (run None searching_a fresh))
  = formErrors (run None searching_a fresh).
Proof.
  assert (requests (run None searching_a fresh) !! 0
          = Some (Request {[ "FirstName" := "a" ]} Pending true)) as Hr
    by evaluate.
  split; [exact Hr|].
  exact (proj1 (success_keeps_error_list None 0 [1]
                  (run None searching_a fresh) _ Hr eq_refl eq_refl)).
Defined.

(** X11 for the empty input. *)
Lemma first_trigger_witness :
  (isRendered (run None [Render; SetValue ""] fresh) = true /\
   _lastSearchCriteria (run None [Render; SetValue ""] fresh) = ∅) /\
  fetches (step None Trigger (run None [Render; SetValue ""] fresh))
  = S (fetches (run None [Render; SetValue ""] fresh)).
Proof.
  assert (isRendered (run None [Render; SetValue ""] fresh) = true)
    as Hr by evaluate.
  assert (_lastSearchCriteria (run None [Render; SetValue ""] fresh) = ∅)
    as Hl by evaluate.
  split; [exact (conj Hr Hl)|].
  exact (proj1 (first_trigger_after_render_fetches None
                  (run None [Render; SetValue ""] fresh) Hr Hl)).
Defined.

(** X12 for the search for ["b"]. *)
Lemma every_request_witness :
  requests (run None searching_b (initialize [] [])) !! 1
  = Some (Request {[ "FirstName" := "b" ]} Pending true) /\
  exists s,
    req_criteria (@Request nat {[ "FirstName" := "b" ]} Pending true)
    = {[ "FirstName" := s ]}.
Proof.
  assert (requests (run None searching_b (initialize [] [])) !! 1
          = Some (Request {[ "FirstName" := "b" ]} Pending true)) as Hr
    by evaluate.
  split; [exact Hr|].
  exact (every_request_asks_for_a_first_name None [] [] searching_b 1 _ Hr).
Defined.

(** X13 for a search for ["b"] that supersedes the search for ["a"]. *)
Lemma superseded_search_witness :
  (_rejectLastSearchRequest
     (run None (searching_a ++ [SetValue "b"]) fresh) = Some 0 /\
   requests (run None (searching_a ++ [SetValue "b"]) fresh) !! 0
   = Some (Request {[ "FirstName" := "a" ]} Pending true) /\
   searchCriteria (run None (searching_a ++ [SetValue "b"]) fresh)
   ≠ _lastSearchCriteria (run None (searching_a ++ [SetValue "b"]) fresh)) /\
  collection
    (run None
       [Trigger;
        FetchFulfilled
          (fetches (run None (searching_a ++ [SetValue "b"]) fresh)) [2]]
       (run None (searching_a ++ [SetValue "b"]) fresh))
  = @_prepareDataForResultsView nat None [2].
Proof.
  assert (_rejectLastSearchRequest
            (run None (searching_a ++ [SetValue "b"]) fresh) = Some 0)
    as E by evaluate.
  assert (requests (run None (searching_a ++ [SetValue "b"]) fresh) !! 0
          = Some (Request {[ "FirstName" := "a" ]} Pending true))
    as Hr by evaluate.
  assert (searchCriteria (run None (searching_a ++ [SetValue "b"]) fresh)
          ≠ _lastSearchCriteria
              (run None (searching_a ++ [SetValue "b"]) fresh))
    as Hne by decide_it.
  split; [exact (conj E (conj Hr Hne))|].
  exact (proj1 (superseded_search_leaves_cancellation_error None
                  (run None (searching_a ++ [SetValue "b"]) fresh) 0 _ [2]
                  E Hr eq_refl Hne)).
Defined.


(** X15 after the answered search for ["a"]. *)
Lemma skipped_trigger_idempotent_witness :
  searchCriteria (run None searched_a fresh)
  = _lastSearchCriteria (run None searched_a fresh) /\
  step None Trigger (step None Trigger (run None searched_a fresh))
  = step None Trigger (run None searched_a fresh).
Proof.
  assert (searchCriteria (run None searched_a fresh)
          = _lastSearchCriteria (run None searched_a fresh)) as E by evaluate.
  split; [exact E|].
  exact (skipped_trigger_idempotent None (run None searched_a fresh) E).
Defined.

(** X16 for two field changes, measured at 10 and 20 pixels. *)
Lemma field_changes_witness :
  isRendered (run None [Render] fresh) = true /\
  resultsViewResized
    (layout_run (run None [Render] fresh) (Timeout <$> [10; 20])
       (layout_run (run None [Render] fresh)
          (replicate (length [10; 20]) FieldsChanged) blank))
  = resultsViewResized blank + length [10; 20].
Proof.
  assert (isRendered (run None [Render] fresh) = true) as Hr by evaluate.
  split; [exact Hr|].
  exact (proj1 (proj2 (field_changes_resize_once_each
                         (run None [Render] fresh) [10; 20] blank Hr))).
Defined.


